(** * blog-writer: the two orchestration strategies of [src/blog_writer.py]

    A shallow embedding of the module: Python values and the result
    normalizer, the three stage functions, the tool-calling orchestrator
    ([langchain_blog_post]), the crew orchestrator ([crewai_blog_post]) and
    the Streamlit entry point ([main]).

    The program is effectful: it constructs model clients, sends prompts to
    a language model and renders widgets.  Effects are threaded through a
    state-and-exception monad [M] over a [World] that records every effect
    in a trace, so that orderings ("before any model call", "outline before
    writing") are statements about that trace.

    Everything the module imports from a third-party package (the model
    client, the hub prompt, the output parser, [json.loads], [repr], the
    agent prompt of the crew framework) is a field of the class
    [Environment]; theorems quantify over all environments. *)

From Stdlib Require Import String Ascii List ZArith QArith Bool Lia DecimalString.
From Stdlib Require Import Permutation.
Import ListNotations.
Local Close Scope Q_scope.
Local Open Scope string_scope.

Set Implicit Arguments.
Set Warnings "-register-all".

(** ** Python values *)

(** The dynamically typed values the module handles.  [PyObject cls text] is
    an instance of a class [cls] that is neither [str] nor [dict], together
    with what its [__str__] returns. *)
Inductive PyValue : Type :=
| PyNone
| PyBool (b : bool)
| PyInt (z : Z)
| PyFloat (q : Q)
| PyStr (s : string)
| PyList (l : list PyValue)
| PyDict (items : list (string * PyValue))
| PyObject (cls : string) (text : string).

(** [isinstance(v, str)] and [isinstance(v, dict)]. *)
Definition is_str (v : PyValue) : bool :=
  match v with PyStr _ => true | _ => false end.

Definition is_dict (v : PyValue) : bool :=
  match v with PyDict _ => true | _ => false end.

(** [d.get(key)]: a dict keeps insertion order, the first binding of a key
    is the one that is found. *)
Fixpoint dict_get (items : list (string * PyValue)) (key : string)
  : option PyValue :=
  match items with
  | [] => None
  | (k, v) :: rest => if String.eqb k key then Some v else dict_get rest key
  end.

Definition dict_keys (items : list (string * PyValue)) : list string :=
  map fst items.

Definition newline : string := String (ascii_of_nat 10) EmptyString.

(** Decimal rendering of an [int]. *)
Definition str_of_int (z : Z) : string := NilZero.string_of_int (Z.to_int z).

(** A [str] is held as its UTF-8 encoding, one [ascii] per byte.  A
    character (a code point) is a byte that is not a continuation byte
    (of the form 10xxxxxx) together with the continuation bytes that follow
    it. *)
Definition is_continuation (c : ascii) : bool :=
  match c with
  | Ascii _ _ _ _ _ _ false true => true
  | _ => false
  end.

(** [s[:n]]: the first [n] characters of [s], all of [s] when it has
    fewer. *)
Fixpoint str_prefix (n : nat) (s : string) : string :=
  match s with
  | EmptyString => EmptyString
  | String c rest =>
      if is_continuation c then String c (str_prefix n rest)
      else
        match n with
        | 0 => EmptyString
        | S n' => String c (str_prefix n' rest)
        end
  end.

(** [len(s)]: the number of characters of [s]. *)
Fixpoint str_len (s : string) : nat :=
  match s with
  | EmptyString => 0
  | String c rest =>
      if is_continuation c then str_len rest else S (str_len rest)
  end.

(** ** Exceptions and results *)

Inductive Exn : Type :=
| ConfigurationError (msg : string)
| ModelError (msg : string)
| HubError (msg : string)
| JSONDecodeError (msg : string)
| TypeError (msg : string)
| KeyError (key : string)
| ValueError (msg : string).

(** [str(e)], as [main] shows it. *)
Definition exn_str (e : Exn) : string :=
  match e with
  | ConfigurationError m | ModelError m | HubError m
  | JSONDecodeError m | TypeError m | ValueError m => m
  | KeyError k => "'" ++ k ++ "'"
  end.

Inductive Result (A : Type) : Type :=
| Ok (a : A)
| Err (e : Exn).

Arguments Ok {A} a.
Arguments Err {A} e.

(** ** Framework objects *)

(** A [ChatOpenAI] instance: an object with an identity ([llm_id]) bound to
    one model configuration. *)
Record LLM : Type := mkLLM {
  llm_id : nat;
  temperature : Q;
  model_name : string
}.

(** [crewai.Agent]. *)
Record Agent : Type := mkAgent {
  role : string;
  goal : string;
  backstory : string;
  agent_llm : LLM;
  agent_verbose : bool
}.

(** [crewai.Task].  Tasks are objects: [context] holds references (object
    identities) to the tasks whose output this one reads. *)
Record Task : Type := mkTask {
  task_id : nat;
  description : string;
  agent : Agent;
  expected_output : string;
  context : list nat
}.

(** [crewai.Crew]. *)
Record Crew : Type := mkCrew {
  agents : list Agent;
  tasks : list Task;
  crew_verbose : bool
}.

(** One entry of the reasoning loop's scratchpad: the tool that was asked
    for, its input and the observation that came back. *)
Record AgentStep : Type := mkStep {
  step_tool : string;
  step_input : string;
  observation : string
}.

(** What the output parser of the reasoning loop makes of a model reply. *)
Inductive PlanOutput : Type :=
| AgentAction (tool : string) (tool_input : string)
| AgentFinish (output : string)
| OutputParserException (msg : string).

(** The shapes in which the crew framework hands back its result. *)
Inductive OutputShape : Type :=
| PlainText
| Structured (metadata : list (string * PyValue))
| ResultObject.

(** The calls of Streamlit functions [main] makes, with their arguments.
    [InSidebar] is a call made inside [with st.sidebar:]. *)
Inductive Widget : Type :=
| StTitle (text : string)
| StHeader (text : string)
| StSelectbox (label : string) (options : list string) (index : nat)
| StSlider (label : string) (min_value max_value value step : Q)
| StRadio (label : string) (options : list string) (index : nat)
| StTextInput (label : string) (value : string)
| StNumberInput (label : string) (min_value max_value value : Z)
| StButton (label : string)
| StSpinner (text : string)
| StSubheader (text : string)
| StWrite (body : PyValue)
| StDownloadButton (label : string) (data : PyValue) (file_name : string)
    (mime : string)
| StError (msg : string)
| InSidebar (w : Widget).

(** ** The world *)

Inductive Event : Type :=
| EvNewClient (c : LLM)
| EvModelCall (c : LLM) (prompt : string)
| EvToolCall (name : string) (input : string)
| EvKickoff (crew : Crew)
| EvTaskStart (t : Task) (ctx : string)
| EvTaskComplete (t : Task) (output : string)
| EvTaskFailed (t : Task) (e : Exn)
| EvUI (w : Widget).

Record World : Type := mkWorld {
  api_key : option string;   (* OPENAI_API_KEY after load_dotenv() *)
  next_id : nat;             (* identity of the next allocated object *)
  calls : nat;               (* model requests sent so far *)
  trace : list Event         (* every effect so far, oldest first *)
}.

Definition is_model_call (e : Event) : bool :=
  match e with EvModelCall _ _ => true | _ => false end.

Definition model_calls (evs : list Event) : list Event :=
  filter is_model_call evs.

(** The prompt object [hub.pull] returns: it renders the tool names and
    descriptions, the input and the scratchpad into the text sent to the
    model. *)
Definition ReactPrompt : Type :=
  list (string * string) -> string -> list AgentStep -> string.

(** Why a call [f( **payload, llm=llm)] cannot be made. *)
Inductive BindingFailure : Type :=
| NotAMapping (payload : PyValue)
| RepeatedKeyword (name : string)
| UnexpectedKeyword (name : string)
| MissingArguments (names : list string).

(** The behaviour the module runs against: the third-party packages, and
    the message texts of the interpreter and of the libraries, which vary
    with their versions. *)
Class Environment : Type := {
  (* [repr] of floats and containers *)
  py_repr : PyValue -> string;
  (* [json.loads]; [None] when the text is not a JSON document *)
  json_loads : string -> option PyValue;
  (* the message of the decoding error [json.loads] raises on a text *)
  json_error_text : string -> string;
  (* the message of the [TypeError] the interpreter raises when the call of
     the named function cannot be made *)
  type_error_text : string -> BindingFailure -> string;
  (* the message of the model client when it finds no key *)
  missing_key_text : string;
  (* the reply of the model service to its n-th request *)
  model_reply : nat -> LLM -> string -> Result string;
  (* [hub.pull] *)
  hub_pull : string -> Result ReactPrompt;
  (* the ReAct output parser *)
  react_parse : string -> PlanOutput;
  (* the reasoning engine's own iteration budget *)
  max_iterations : nat;
  (* the prompt a crew agent builds for a task and its context *)
  crew_prompt : Agent -> Task -> string -> string;
  (* the shape [Crew.kickoff] returns its result in *)
  crew_output_shape : OutputShape
}.

(** ** The effect monad *)

Definition M (A : Type) : Type := World -> Result A * World.

Definition ret {A : Type} (a : A) : M A := fun w => (Ok a, w).

Definition bind {A B : Type} (m : M A) (f : A -> M B) : M B :=
  fun w =>
    match m w with
    | (Ok a, w') => f a w'
    | (Err e, w') => (Err e, w')
    end.

Definition raise {A : Type} (e : Exn) : M A := fun w => (Err e, w).

(** [try: m  except Exception as e: h e] *)
Definition try_except {A : Type} (m : M A) (h : Exn -> M A) : M A :=
  fun w =>
    match m w with
    | (Ok a, w') => (Ok a, w')
    | (Err e, w') => h e w'
    end.

Definition lift {A : Type} (r : Result A) : M A := fun w => (r, w).

Definition emit (e : Event) : M unit :=
  fun w => (Ok tt, mkWorld (api_key w) (next_id w) (calls w) (trace w ++ [e])).

(** A fresh object identity. *)
Definition fresh : M nat :=
  fun w => (Ok (next_id w),
            mkWorld (api_key w) (S (next_id w)) (calls w) (trace w)).

Declare Scope monad_scope.
Delimit Scope monad_scope with monad.
Notation "x <- c ;; k" := (bind c (fun x => k))
  (at level 61, c at next level, right associativity) : monad_scope.
Notation "c ;;; k" := (bind c (fun _ => k))
  (at level 61, right associativity) : monad_scope.
Local Open Scope monad_scope.

Section Program.

Context {E : Environment}.

(** ** Builtins *)

(** [str(v)], which is also what [format(v, '')] gives inside a template or
    an f-string. *)
Definition py_str (v : PyValue) : string :=
  match v with
  | PyStr s => s
  | PyNone => "None"
  | PyBool true => "True"
  | PyBool false => "False"
  | PyInt z => str_of_int z
  | PyObject _ text => text
  | PyFloat _ | PyList _ | PyDict _ => py_repr v
  end.

(** ** The result normalizer (lines 54-60) *)

(** In [result.get('raw', str(result))] the default is evaluated before
    the lookup.  Every value of [PyValue] has a rendering (an object carries
    the text its [__str__] returns), so evaluating it first cannot fail
    here; an object whose rendering raises is outside [PyValue]. *)
Definition clean_crewai_output (result : PyValue) : PyValue :=
  if is_str result then result
  else
    match result with
    | PyDict items =>
        let default := PyStr (py_str result) in
        match dict_get items "raw" with
        | Some v => v
        | None => default
        end
    | _ => PyStr (py_str result)
    end.

(** ** The model client *)

(** Modelled from the spec: the constructor of the model client belongs to
    the third-party package [langchain_openai] and is absent from src/.  It
    reads the credential from the process environment itself; following
    sections 6 and 7 of the spec, a missing key is a configuration error
    raised at construction, and a present key yields a fresh client object
    bound to the given configuration. *)
Definition ChatOpenAI (temperature : Q) (model : string) : M LLM :=
  fun w =>
    match api_key w with
    | None =>
        (Err (ConfigurationError missing_key_text), w)
    | Some _ =>
        let c := mkLLM (next_id w) temperature model in
        (Ok c,
         mkWorld (api_key w) (S (next_id w)) (calls w)
                 (trace w ++ [EvNewClient c]))
    end.

(** [llm.invoke(prompt).content]: one request to the model service. *)
Definition invoke (llm : LLM) (prompt : string) : M string :=
  fun w =>
    (model_reply (calls w) llm prompt,
     mkWorld (api_key w) (next_id w) (S (calls w))
             (trace w ++ [EvModelCall llm prompt])).

(** Module level, lines 12-15. *)
Record Globals : Type := mkGlobals {
  openai_api_key : option string;
  global_llm : LLM
}.

Definition os_getenv_key : M (option string) := fun w => (Ok (api_key w), w).

Definition module_init : M Globals :=
  key <- os_getenv_key ;;
  llm <- ChatOpenAI (8 # 10)%Q "gpt-4" ;;
  ret (mkGlobals key llm).

(** Lines 17-19. *)
Definition get_llm (temperature : Q) (model_name : string) : M LLM :=
  ChatOpenAI temperature model_name.

(** ** Stage functions (lines 21-52) *)

Definition generate_outline (topic audience : PyValue) (llm : LLM)
  : M string :=
  invoke llm
    ("Create detailed outline for blog post about '" ++ py_str topic
     ++ "' for audience '" ++ py_str audience ++ "'. Include:" ++ newline
     ++ "- Main sections" ++ newline ++ "- Sub-sections" ++ newline
     ++ "- Key points" ++ newline ++ "- Suggested call-to-action").

Definition generate_blog_post (topic audience tone word_count keywords : PyValue)
  (llm : LLM) : M string :=
  invoke llm
    ("Write comprehensive blog post about " ++ py_str topic ++ " for "
     ++ py_str audience ++ " (" ++ py_str tone ++ " tone, "
     ++ py_str word_count ++ " words). Keywords: " ++ py_str keywords).

Definition seo_optimizer (text keywords : PyValue) (llm : LLM) : M string :=
  invoke llm
    ("Improve SEO for this content using keywords " ++ py_str keywords
     ++ ":" ++ newline ++ newline ++ py_str text).

(** ** Calling a stage function with [**json.loads(x), llm=llm] *)

Definition loads (x : string) : Result PyValue :=
  match json_loads x with
  | Some v => Ok v
  | None => Err (JSONDecodeError (json_error_text x))
  end.

Definition mem (k : string) (l : list string) : bool :=
  existsb (String.eqb k) l.

(** The values of the declared parameters, in declaration order; when a
    parameter has no value the call is a [TypeError] that names every
    parameter without one. *)
Fixpoint bind_params (fname : string) (items : list (string * PyValue))
  (params : list string) : Result (list PyValue) :=
  match params with
  | [] => Ok []
  | p :: ps =>
      match dict_get items p with
      | None =>
          Err (TypeError
                 (type_error_text fname
                    (MissingArguments
                       (filter (fun q => negb (mem q (dict_keys items)))
                               params))))
      | Some v =>
          match bind_params fname items ps with
          | Ok vs => Ok (v :: vs)
          | Err e => Err e
          end
      end
  end.

(** Python's binding of [f( **payload, llm=llm)] to a function [f] whose
    parameters besides [llm] are [params]: the payload must be a mapping, may
    not bind [llm] a second time, may not name an undeclared parameter (the
    first one met is reported) and must name every declared one.  Parameter
    annotations are not checked. *)
Definition call_with_kwargs (fname : string) (params : list string)
  (payload : PyValue) : Result (list PyValue) :=
  match payload with
  | PyDict items =>
      if mem "llm" (dict_keys items) then
        Err (TypeError (type_error_text fname (RepeatedKeyword "llm")))
      else
        match find (fun k => negb (mem k params)) (dict_keys items) with
        | Some k =>
            Err (TypeError (type_error_text fname (UnexpectedKeyword k)))
        | None => bind_params fname items params
        end
  | _ => Err (TypeError (type_error_text fname (NotAMapping payload)))
  end.

(** ** The tools (lines 123-139) *)

(** [langchain_core.tools.Tool]: a name, a function of one string and a
    description. *)
Record Tool : Type := mkTool {
  tool_name : string;
  func : string -> M string;
  tool_description : string
}.

Definition outline_params : list string := ["topic"; "audience"].
Definition blog_params : list string :=
  ["topic"; "audience"; "tone"; "word_count"; "keywords"].
Definition seo_params : list string := ["text"; "keywords"].

(** [lambda x: generate_outline( **json.loads(x), llm=llm)].  In the three
    tools the last branch of the match is never taken: a payload that binds
    gives one value for each declared parameter. *)
Definition outline_func (llm : LLM) (x : string) : M string :=
  payload <- lift (loads x) ;;
  args <- lift (call_with_kwargs "generate_outline" outline_params payload) ;;
  match args with
  | [topic; audience] => generate_outline topic audience llm
  | _ => raise (TypeError (type_error_text "generate_outline"
                             (MissingArguments outline_params)))
  end.

(** [lambda x: generate_blog_post( **json.loads(x), llm=llm)] *)
Definition blog_func (llm : LLM) (x : string) : M string :=
  payload <- lift (loads x) ;;
  args <- lift (call_with_kwargs "generate_blog_post" blog_params payload) ;;
  match args with
  | [topic; audience; tone; word_count; keywords] =>
      generate_blog_post topic audience tone word_count keywords llm
  | _ => raise (TypeError (type_error_text "generate_blog_post"
                             (MissingArguments blog_params)))
  end.

(** [lambda x: seo_optimizer( **json.loads(x), llm=llm)] *)
Definition seo_func (llm : LLM) (x : string) : M string :=
  payload <- lift (loads x) ;;
  args <- lift (call_with_kwargs "seo_optimizer" seo_params payload) ;;
  match args with
  | [text; keywords] => seo_optimizer text keywords llm
  | _ => raise (TypeError (type_error_text "seo_optimizer"
                             (MissingArguments seo_params)))
  end.

Definition blog_tools (llm : LLM) : list Tool :=
  [ mkTool "OutlineGenerator" (outline_func llm)
      "Creates content outlines. Input should be JSON with 'topic' and 'audience' keys";
    mkTool "BlogWriter" (blog_func llm)
      "Writes blog posts. Input should be JSON with 'topic', 'audience', 'tone', 'word_count', 'keywords'";
    mkTool "SEOOptimizer" (seo_func llm)
      "Optimizes content. Input should be JSON with 'text' and 'keywords'" ].

(** ** The reasoning loop *)

(** [create_react_agent(llm, tools, prompt)] *)
Record ReactAgent : Type := mkReactAgent {
  react_llm : LLM;
  react_tools : list (string * string);
  react_prompt : ReactPrompt
}.

Definition create_react_agent (llm : LLM) (tools : list Tool)
  (prompt : ReactPrompt) : ReactAgent :=
  mkReactAgent llm
    (map (fun t => (tool_name t, tool_description t)) tools) prompt.

(** [AgentExecutor(agent=, tools=, verbose=, handle_parsing_errors=)] *)
Record AgentExecutor : Type := mkAgentExecutor {
  exec_agent : ReactAgent;
  exec_tools : list Tool;
  exec_verbose : bool;
  handle_parsing_errors : bool
}.

(** One reasoning turn: the prompt is rendered from the input and the
    scratchpad, sent to the agent's model, and the reply is parsed. *)
Definition plan (a : ReactAgent) (input : string) (steps : list AgentStep)
  : M PlanOutput :=
  text <- invoke (react_llm a) (react_prompt a (react_tools a) input steps) ;;
  ret (react_parse text).

Definition find_tool (tools : list Tool) (name : string) : option Tool :=
  find (fun t => String.eqb (tool_name t) name) tools.

(** Running the tool an action names.  An unknown name is answered with an
    observation; the function of a known tool runs, and what it raises
    leaves [perform_agent_action]: the tools themselves are given no
    handler. *)
Definition perform_agent_action (tools : list Tool) (name input : string)
  : M string :=
  match find_tool tools name with
  | Some t => emit (EvToolCall name input) ;;; func t input
  | None =>
      ret (name ++ " is not a valid tool, try one of ["
           ++ String.concat ", " (map tool_name tools) ++ "].")
  end.

Definition stopped_response : string :=
  "Agent stopped due to iteration limit or time limit.".

(** Modelled from the spec: the errors of a tool call the reasoning loop
    recovers from (section 7, ToolInvocationError): those of malformed
    structured arguments, that is a text that is no JSON document and a
    payload that does not bind to the stage function.  An error of the
    model service is not one of them (section 7: propagated unmodified). *)
Definition is_tool_invocation_error (e : Exn) : bool :=
  match e with
  | TypeError _ | JSONDecodeError _ => true
  | _ => false
  end.

(** Modelled from the spec: the reasoning loop is the executor of the
    third-party package [langchain] ([AgentExecutor]), absent from src/.
    Following sections 4.2 and 7, turn by turn, for [n] more turns: a final
    answer ends the loop; an action runs a tool and its observation joins
    the scratchpad; a tool call that fails on its arguments fails alone,
    the text of its error being the observation the loop continues with; a
    reply the parser rejects is turned into an observation when
    [handle_parsing_errors] is set, and is an error otherwise; an error of
    the model service propagates; when the engine's budget is used up the
    engine answers with its own stop message. *)
Fixpoint agent_loop (ex : AgentExecutor) (input : string) (n : nat)
  (steps : list AgentStep) : M string :=
  match n with
  | O => ret stopped_response
  | S n' =>
      out <- plan (exec_agent ex) input steps ;;
      match out with
      | AgentFinish answer => ret answer
      | AgentAction name tool_input =>
          obs <- try_except
                   (perform_agent_action (exec_tools ex) name tool_input)
                   (fun e => if is_tool_invocation_error e
                             then ret (exn_str e) else raise e) ;;
          agent_loop ex input n' (steps ++ [mkStep name tool_input obs])
      | OutputParserException msg =>
          if handle_parsing_errors ex then
            agent_loop ex input n' (steps ++ [mkStep "_Exception" msg msg])
          else
            raise (ValueError ("An output parsing error occurred. " ++ msg))
      end
  end.

(** [agent_executor.invoke({"input": ...})]: the inputs together with the
    loop's return values. *)
Definition executor_invoke (ex : AgentExecutor) (input : string) : M PyValue :=
  answer <- agent_loop ex input max_iterations [] ;;
  ret (PyDict [("input", PyStr input); ("output", PyStr answer)]).

(** [d[key]] *)
Definition subscript (d : PyValue) (key : string) : Result PyValue :=
  match d with
  | PyDict items =>
      match dict_get items key with
      | Some v => Ok v
      | None => Err (KeyError key)
      end
  | _ => Err (TypeError "object is not subscriptable")
  end.

(** ** The linear orchestrator (lines 121-157) *)

Definition linear_input (topic audience tone : string) (word_count : Z)
  (keywords : string) : string :=
  "Write a blog post about " ++ topic ++ " for " ++ audience ++ " with "
  ++ tone ++ " tone, " ++ newline
  ++ "        " ++ str_of_int word_count ++ " words, using keywords: "
  ++ keywords ++ ". Follow this process:" ++ newline
  ++ "        1. First create an outline using OutlineGenerator" ++ newline
  ++ "        2. Then write the full post using BlogWriter" ++ newline
  ++ "        3. Finally optimize for SEO using SEOOptimizer".

Definition langchain_blog_post (topic audience tone : string) (word_count : Z)
  (keywords : string) (llm : LLM) : M PyValue :=
  let tools := blog_tools llm in
  prompt <- lift (hub_pull "hwchase17/react") ;;
  let agent := create_react_agent llm tools prompt in
  let agent_executor := mkAgentExecutor agent tools false true in
  result <- executor_invoke agent_executor
              (linear_input topic audience tone word_count keywords) ;;
  lift (subscript result "output").

(** ** The crew coordinator *)

(** [Task(description=, agent=, expected_output=, context=)]: a new task
    object; its context refers to the task objects it is given. *)
Definition new_task (description : string) (agent : Agent)
  (expected_output : string) (context : list Task) : M Task :=
  id <- fresh ;;
  ret (mkTask id description agent expected_output (map task_id context)).

(** The outputs of the tasks completed so far, by task identity. *)
Fixpoint lookup_output (outputs : list (nat * string)) (id : nat)
  : option string :=
  match outputs with
  | [] => None
  | (i, o) :: rest => if Nat.eqb i id then Some o else lookup_output rest id
  end.

(** The outputs of a task's dependencies; a dependency that has produced no
    output yet blocks the task. *)
Fixpoint gather_context (outputs : list (nat * string)) (deps : list nat)
  : Result (list string) :=
  match deps with
  | [] => Ok []
  | d :: ds =>
      match lookup_output outputs d with
      | None => Err (ValueError "a context task has produced no output")
      | Some o =>
          match gather_context outputs ds with
          | Ok os => Ok (o :: os)
          | Err e => Err e
          end
      end
  end.

(** An agent carries out a task: its model is sent the prompt built from
    the agent, the task and the task's context. *)
Definition execute_task (t : Task) (ctx : string) : M string :=
  invoke (agent_llm (agent t)) (crew_prompt (agent t) t ctx).

(** Modelled from the spec: the coordinator is [Crew.kickoff] of the
    third-party package [crewai], absent from src/.  Following section 4.3
    and the state machine of section 4.4: tasks run one at a time in the
    order the crew lists them; a task starts only when each task of its
    context has produced output, which is joined into the context the task
    is given; a completed task's output is kept for its dependents; a task
    that fails halts the run. *)
Fixpoint execute_tasks (ts : list Task) (outputs : list (nat * string))
  (last : string) : M string :=
  match ts with
  | [] => ret last
  | t :: rest =>
      ctxs <- lift (gather_context outputs (context t)) ;;
      let ctx := String.concat newline ctxs in
      emit (EvTaskStart t ctx) ;;;
      out <- try_except (execute_task t ctx)
               (fun e => emit (EvTaskFailed t e) ;;; raise e) ;;
      emit (EvTaskComplete t out) ;;;
      execute_tasks rest ((task_id t, out) :: outputs) out
  end.

(** Modelled from the spec: the value [Crew.kickoff] returns (section 4.3:
    a plain string, or a structured result carrying the final text in its
    primary field next to auxiliary metadata). *)
Definition crew_result (shape : OutputShape) (raw : string) : PyValue :=
  match shape with
  | PlainText => PyStr raw
  | Structured metadata => PyDict (("raw", PyStr raw) :: metadata)
  | ResultObject => PyObject "CrewOutput" raw
  end.

(** Modelled from the spec: [Crew.kickoff] itself, absent from src/ like
    the rest of the coordinator: the crew's tasks are run through
    [execute_tasks] and the text of the last one is the result. *)
Definition kickoff (crew : Crew) : M PyValue :=
  emit (EvKickoff crew) ;;;
  raw <- execute_tasks (tasks crew) [] EmptyString ;;
  ret (crew_result crew_output_shape raw).

(** ** The crew orchestrator (lines 62-119) *)

Definition crewai_blog_post (topic audience tone : string) (word_count : Z)
  (keywords : string) (llm : LLM) : M PyValue :=
  let outline_agent :=
    mkAgent "Content Strategist" "Create compelling content outlines"
      "Expert in structuring engaging content for various audiences"
      llm true in
  let writer_agent :=
    mkAgent "Content Writer" "Write high-quality blog posts"
      "Skilled writer with expertise in various industries and tones"
      llm true in
  let seo_agent :=
    mkAgent "SEO Specialist" "Optimize content for search engines"
      "SEO expert with deep knowledge of keyword optimization"
      llm true in
  outline_task <-
    new_task
      ("Create an outline for a blog post about " ++ topic ++ " targeting "
       ++ audience)
      outline_agent
      "Detailed content outline with main sections, sub-sections, and key points"
      [] ;;
  writing_task <-
    new_task
      ("Write a " ++ str_of_int word_count ++ "-word blog post about "
       ++ topic ++ " for " ++ audience ++ " " ++ newline
       ++ "        with a " ++ tone ++ " tone. Keywords to include: "
       ++ keywords)
      writer_agent
      "Well-written blog post with proper structure and engaging content"
      [outline_task] ;;
  seo_task <-
    new_task
      ("Optimize the blog post for SEO using keywords: " ++ keywords)
      seo_agent
      "SEO-optimized version of the blog post with improved keyword usage"
      [writing_task] ;;
  let crew :=
    mkCrew [outline_agent; writer_agent; seo_agent]
           [outline_task; writing_task; seo_task] true in
  result <- kickoff crew ;;
  ret (clean_crewai_output result).

(** ** The entry point (lines 159-212) *)

(** What the input widgets of the page return in this run of the script:
    the variables [model_name], [temperature], [framework], [topic],
    [audience], [tone], [word_count] and [keywords] of [main], and the value
    of [st.button].  Streamlit keeps each within the options and bounds of
    its widget; nothing below relies on that. *)
Record UIState : Type := mkUIState {
  ui_model_name : string;
  ui_temperature : Q;
  ui_framework : string;
  ui_topic : string;
  ui_audience : string;
  ui_tone : string;
  ui_word_count : Z;
  ui_keywords : string;
  ui_generate : bool          (* the button "Generate Blog Post" *)
}.

Definition st (w : Widget) : M unit := emit (EvUI w).

(** The body of the [try] block, lines 190-206. *)
Definition main_try (ui : UIState) : M unit :=
  current_llm <- get_llm (ui_temperature ui) (ui_model_name ui) ;;
  blog_post <-
    (if String.eqb (ui_framework ui) "LangChain" then
       langchain_blog_post (ui_topic ui) (ui_audience ui) (ui_tone ui)
         (ui_word_count ui) (ui_keywords ui) current_llm
     else
       crewai_blog_post (ui_topic ui) (ui_audience ui) (ui_tone ui)
         (ui_word_count ui) (ui_keywords ui) current_llm) ;;
  st (StSubheader "Generated Blog Post") ;;;
  st (StWrite blog_post) ;;;
  st (StDownloadButton "Download Blog Post" blog_post
        ("blog_post_" ++ str_prefix 20 (ui_topic ui) ++ ".txt")
        "text/plain").

(** A call inside [with st.sidebar:]. *)
Definition sidebar (w : Widget) : M unit := st (InSidebar w).

(** Lines 159-209.  The spinner is a call like the others: it is shown
    when the [with] block is entered, and leaving the block makes no call.
    The handler catches [Exception], which every [Exn] is. *)
Definition main (ui : UIState) : M unit :=
  st (StTitle "AI Blog Post Generator") ;;;
  sidebar (StHeader "Settings") ;;;
  sidebar (StSelectbox "Model" ["gpt-4"; "gpt-3.5-turbo"] 0) ;;;
  sidebar (StSlider "Creativity (Temperature)" 0 1 (8 # 10) (1 # 10))%Q ;;;
  sidebar (StRadio "Framework" ["LangChain"; "CrewAI"] 0) ;;;
  st (StTextInput "Blog Topic" "The Future of AI in Content Creation") ;;;
  st (StTextInput "Target Audience" "marketing professionals") ;;;
  st (StTextInput "Tone" "insightful yet accessible") ;;;
  st (StNumberInput "Word Count" 300 5000 1200) ;;;
  st (StTextInput "Keywords (comma separated)"
        "AI content creation, future of marketing, automated content") ;;;
  pressed <- (st (StButton "Generate Blog Post") ;;; ret (ui_generate ui)) ;;
  if pressed then
    st (StSpinner "Generating your blog post...") ;;;
    try_except (main_try ui)
      (fun e => st (StError ("Error occurred: " ++ exn_str e)))
  else ret tt.

(** One run of the script: the module level, then [main]. *)
Definition script (ui : UIState) : M unit :=
  module_init ;;; main ui.

End Program.

(** ** Vocabulary of the statements *)

(** The calls [main] makes on every run, in order (lines 160-187). *)
Definition title_widget : Widget := StTitle "AI Blog Post Generator".

Definition page_widgets : list Widget :=
  [ title_widget;
    InSidebar (StHeader "Settings");
    InSidebar (StSelectbox "Model" ["gpt-4"; "gpt-3.5-turbo"] 0);
    InSidebar (StSlider "Creativity (Temperature)" 0 1 (8 # 10) (1 # 10))%Q;
    InSidebar (StRadio "Framework" ["LangChain"; "CrewAI"] 0);
    StTextInput "Blog Topic" "The Future of AI in Content Creation";
    StTextInput "Target Audience" "marketing professionals";
    StTextInput "Tone" "insightful yet accessible";
    StNumberInput "Word Count" 300 5000 1200;
    StTextInput "Keywords (comma separated)"
      "AI content creation, future of marketing, automated content";
    StButton "Generate Blog Post" ].

(** The spinner of line 188 and the error of line 209. *)
Definition spinner_widget : Widget := StSpinner "Generating your blog post...".

Definition error_widget (e : Exn) : Widget :=
  StError ("Error occurred: " ++ exn_str e).

(** World [w] after the calls [ws]. *)
Definition rendered (ws : list Widget) (w : World) : World :=
  mkWorld (api_key w) (next_id w) (calls w) (trace w ++ map EvUI ws).

(** The world in which the [try] block starts when [main] is entered in
    [w] and the button is pressed: the page and the spinner are there. *)
Definition page_world (w : World) : World :=
  rendered (page_widgets ++ [spinner_widget]) w.

(** A result whose ['raw'] field, if it is a record with one, holds text:
    the structured results of sections 4.3 and 9 of the spec. *)
Definition raw_is_text (v : PyValue) : bool :=
  match v with
  | PyDict items =>
      match dict_get items "raw" with
      | Some x => is_str x
      | None => true
      end
  | _ => true
  end.

Section Vocabulary.

Context {E : Environment}.

(** The computation only appends to the trace, and every event it appends
    satisfies [P]. *)
Definition emits {A : Type} (P : Event -> Prop) (m : M A) : Prop :=
  forall w, exists evs : list Event,
    trace (snd (m w)) = (trace w ++ evs)%list /\ Forall P evs.

(** The event involves no model client but [c]: a request is sent through
    [c], an agent or a task is bound to [c], no client is constructed. *)
Definition bound_to (c : LLM) (e : Event) : Prop :=
  match e with
  | EvNewClient _ => False
  | EvModelCall c' _ => c' = c
  | EvKickoff crew =>
      Forall (fun a => agent_llm a = c) (agents crew)
      /\ Forall (fun t => agent_llm (agent t) = c) (tasks crew)
  | EvTaskStart t _ | EvTaskComplete t _ | EvTaskFailed t _ =>
      agent_llm (agent t) = c
  | EvToolCall _ _ | EvUI _ => True
  end.

(** The tools and the parameter names their stage functions declare. *)
Definition tool_params : list (string * list string) :=
  [ ("OutlineGenerator", outline_params);
    ("BlogWriter", blog_params);
    ("SEOOptimizer", seo_params) ].

(** The payload names exactly the declared parameters. *)
Definition keys_match (params : list string) (items : list (string * PyValue))
  : bool :=
  forallb (fun k => mem k params) (dict_keys items)
  && forallb (fun p => mem p (dict_keys items)) params.

(** The world once a request has been sent through [c]. *)
Definition after_call (c : LLM) (prompt : string) (w : World) : World :=
  mkWorld (api_key w) (next_id w) (S (calls w))
          (trace w ++ [EvModelCall c prompt]).

(** The request of one reasoning turn of executor [ex] on the scratchpad
    [steps]. *)
Definition turn_prompt (ex : AgentExecutor) (input : string)
  (steps : list AgentStep) : string :=
  react_prompt (exec_agent ex) (react_tools (exec_agent ex)) input steps.

(** The model's reply to the reasoning turn taken in world [w]. *)
Definition turn_reply (ex : AgentExecutor) (input : string)
  (steps : list AgentStep) (w : World) : Result string :=
  model_reply (calls w) (react_llm (exec_agent ex))
              (turn_prompt ex input steps).

(** The world once that turn's request has been sent. *)
Definition after_turn (ex : AgentExecutor) (input : string)
  (steps : list AgentStep) (w : World) : World :=
  after_call (react_llm (exec_agent ex)) (turn_prompt ex input steps) w.

(** The world once the call of a tool has been recorded. *)
Definition after_tool_call (name x : string) (w : World) : World :=
  mkWorld (api_key w) (next_id w) (calls w) (trace w ++ [EvToolCall name x]).

(** One intermediate turn, seen from outside the loop: either the model
    asks for an action and the tool call returns an observation, or the
    parser rejects the model's reply.  The flag tells which; the turn leads
    from a scratchpad and a world to the next ones. *)
Inductive Turn (ex : AgentExecutor) (input : string)
  : bool -> list AgentStep -> World -> list AgentStep -> World -> Prop :=
| Turn_action steps w reply name x obs w1 :
    turn_reply ex input steps w = Ok reply ->
    react_parse reply = AgentAction name x ->
    perform_agent_action (exec_tools ex) name x (after_turn ex input steps w)
    = (Ok obs, w1) ->
    Turn ex input false steps w (steps ++ [mkStep name x obs]) w1
| Turn_malformed steps w reply msg :
    turn_reply ex input steps w = Ok reply ->
    react_parse reply = OutputParserException msg ->
    Turn ex input true steps w (steps ++ [mkStep "_Exception" msg msg])
         (after_turn ex input steps w).

(** [Turns ex input m k steps w steps' w']: [k] intermediate turns in a
    row, [m] of them malformed. *)
Inductive Turns (ex : AgentExecutor) (input : string)
  : nat -> nat -> list AgentStep -> World -> list AgentStep -> World -> Prop :=
| Turns_none steps w : Turns ex input 0 0 steps w steps w
| Turns_more malformed steps w steps1 w1 m k steps2 w2 :
    Turn ex input malformed steps w steps1 w1 ->
    Turns ex input m k steps1 w1 steps2 w2 ->
    Turns ex input ((if malformed then 1 else 0) + m) (S k) steps w steps2 w2.

(** The request a crew agent sends for task [t] given context [ctx]. *)
Definition task_call (t : Task) (ctx : string) : Event :=
  EvModelCall (agent_llm (agent t)) (crew_prompt (agent t) t ctx).

(** The model's reply to the [n]-th request when it is that request. *)
Definition task_reply (n : nat) (t : Task) (ctx : string) : Result string :=
  model_reply n (agent_llm (agent t)) (crew_prompt (agent t) t ctx).

(** The runs of a chain of three tasks, each reading the output of the one
    before, when the first request is the [n]-th: the final text or the
    error, and the events, according to how the model replies. *)
Inductive ChainRun (t1 t2 t3 : Task) (n : nat)
  : Result string -> list Event -> Prop :=
| Chain_first_fails e :
    task_reply n t1 EmptyString = Err e ->
    ChainRun t1 t2 t3 n (Err e)
      [ EvTaskStart t1 EmptyString; task_call t1 EmptyString;
        EvTaskFailed t1 e ]
| Chain_second_fails o1 e :
    task_reply n t1 EmptyString = Ok o1 ->
    task_reply (S n) t2 o1 = Err e ->
    ChainRun t1 t2 t3 n (Err e)
      [ EvTaskStart t1 EmptyString; task_call t1 EmptyString;
        EvTaskComplete t1 o1;
        EvTaskStart t2 o1; task_call t2 o1; EvTaskFailed t2 e ]
| Chain_third_fails o1 o2 e :
    task_reply n t1 EmptyString = Ok o1 ->
    task_reply (S n) t2 o1 = Ok o2 ->
    task_reply (S (S n)) t3 o2 = Err e ->
    ChainRun t1 t2 t3 n (Err e)
      [ EvTaskStart t1 EmptyString; task_call t1 EmptyString;
        EvTaskComplete t1 o1;
        EvTaskStart t2 o1; task_call t2 o1; EvTaskComplete t2 o2;
        EvTaskStart t3 o2; task_call t3 o2; EvTaskFailed t3 e ]
| Chain_completes o1 o2 o3 :
    task_reply n t1 EmptyString = Ok o1 ->
    task_reply (S n) t2 o1 = Ok o2 ->
    task_reply (S (S n)) t3 o2 = Ok o3 ->
    ChainRun t1 t2 t3 n (Ok o3)
      [ EvTaskStart t1 EmptyString; task_call t1 EmptyString;
        EvTaskComplete t1 o1;
        EvTaskStart t2 o1; task_call t2 o1; EvTaskComplete t2 o2;
        EvTaskStart t3 o2; task_call t3 o2; EvTaskComplete t3 o3 ].

(** [crew] is the crew of the blog pipeline bound to client [llm]: three
    agents, and three tasks [t1], [t2], [t3] (outline, writing, SEO), one
    per agent, allocated from identity [id] on, each but the first reading
    the one before. *)
Definition blog_crew (llm : LLM) (id : nat) (crew : Crew) (t1 t2 t3 : Task)
  : Prop :=
  tasks crew = [t1; t2; t3]
  /\ agents crew = [agent t1; agent t2; agent t3]
  /\ map role (agents crew)
     = ["Content Strategist"; "Content Writer"; "SEO Specialist"]
  /\ Forall (fun a => agent_llm a = llm) (agents crew)
  /\ map task_id (tasks crew) = [id; S id; S (S id)]
  /\ context t1 = []
  /\ context t2 = [task_id t1]
  /\ context t3 = [task_id t2].

(** The client the module level constructs when the script starts in world
    [w], and the client [main] then constructs for the run. *)
Definition default_client (w : World) : LLM :=
  mkLLM (next_id w) (8 # 10)%Q "gpt-4".

Definition run_client (ui : UIState) (w : World) : LLM :=
  mkLLM (S (next_id w)) (ui_temperature ui) (ui_model_name ui).

(** [e] happens at position [i] of [evs]. *)
Definition at_position (evs : list Event) (i : nat) (e : Event) : Prop :=
  nth_error evs i = Some e.

(** Wherever [later] happens in [evs], [earlier] has happened before. *)
Definition preceded_by (evs : list Event) (later earlier : Event) : Prop :=
  forall i, at_position evs i later ->
            exists j, j < i /\ at_position evs j earlier.

(** The executor [langchain_blog_post] builds for client [llm] once the hub
    has delivered [prompt]. *)
Definition blog_executor (llm : LLM) (prompt : ReactPrompt) : AgentExecutor :=
  mkAgentExecutor (create_react_agent llm (blog_tools llm) prompt)
                  (blog_tools llm) false true.

End Vocabulary.

(** ** A concrete environment

    Used to run the program on explicit inputs.  The model service is a
    script of replies, consumed one per request. *)

Definition dq : string := String (ascii_of_nat 34) EmptyString.

(** The text of a flat JSON object whose values are strings. *)
Definition json_object (fields : list (string * string)) : string :=
  "{" ++ String.concat ", "
           (map (fun kv => dq ++ fst kv ++ dq ++ ": " ++ dq ++ snd kv ++ dq)
                fields)
  ++ "}".

Definition demo_documents : list (list (string * string)) :=
  [ [("topic", "AI"); ("audience", "marketers")];
    [("topic", "AI")];
    [("topic", "AI"); ("audience", "marketers"); ("style", "dry")];
    [("topic", "AI"); ("audience", "marketers"); ("tone", "dry");
     ("word_count", "500"); ("keywords", "ai")];
    [("text", "draft"); ("keywords", "ai")] ].

(** [json.loads] on the documents above. *)
Definition demo_json_loads (x : string) : option PyValue :=
  match find (fun d => String.eqb (json_object d) x) demo_documents with
  | Some d => Some (PyDict (map (fun kv => (fst kv, PyStr (snd kv))) d))
  | None => None
  end.

Definition drop (n : nat) (s : string) : string :=
  substring n (String.length s - n) s.

(** A parser for replies of the two shapes
    [Final Answer: <text>] and [Action: <tool>\nAction Input: <input>]. *)
Definition demo_react_parse (text : string) : PlanOutput :=
  if prefix "Final Answer: " text then AgentFinish (drop 14 text)
  else if prefix "Action: " text then
    let rest := drop 8 text in
    match index 0 newline rest with
    | Some i =>
        let after := drop (S i) rest in
        if prefix "Action Input: " after then
          AgentAction (substring 0 i rest) (drop 14 after)
        else OutputParserException "Invalid Format: Missing 'Action Input:' after 'Action:'"
    | None => OutputParserException "Invalid Format: Missing 'Action Input:' after 'Action:'"
    end
  else OutputParserException "Invalid Format: Missing 'Action:' after 'Thought:'".

Definition demo_repr_atom (v : PyValue) : string :=
  match v with
  | PyStr s => "'" ++ s ++ "'"
  | PyInt z => str_of_int z
  | PyNone => "None"
  | _ => "..."
  end.

(** [repr] on flat values whose strings need no escaping. *)
Definition demo_repr (v : PyValue) : string :=
  match v with
  | PyDict items =>
      "{" ++ String.concat ", "
               (map (fun kv => "'" ++ fst kv ++ "': " ++ demo_repr_atom (snd kv))
                    items)
      ++ "}"
  | PyList l => "[" ++ String.concat ", " (map demo_repr_atom l) ++ "]"
  | _ => demo_repr_atom v
  end.

Definition demo_prompt : ReactPrompt :=
  fun tools input steps =>
    "Tools: " ++ String.concat ", " (map fst tools) ++ newline
    ++ "Question: " ++ input
    ++ String.concat EmptyString
         (map (fun s => newline ++ "Action: " ++ step_tool s ++ newline
                        ++ "Observation: " ++ observation s) steps).

(** Message texts in the manner of CPython 3.12, of [json] and of the
    [openai] client. *)
Definition quoted (name : string) : string := "'" ++ name ++ "'".

Fixpoint name_list_tail (names : list string) : string :=
  match names with
  | [] => EmptyString
  | [a] => "and " ++ quoted a
  | a :: rest => quoted a ++ ", " ++ name_list_tail rest
  end.

Definition name_list (names : list string) : string :=
  match names with
  | [] => EmptyString
  | [a] => quoted a
  | [a; b] => quoted a ++ " and " ++ quoted b
  | a :: rest => quoted a ++ ", " ++ name_list_tail rest
  end.

Definition type_name (v : PyValue) : string :=
  match v with
  | PyNone => "NoneType"
  | PyBool _ => "bool"
  | PyInt _ => "int"
  | PyFloat _ => "float"
  | PyStr _ => "str"
  | PyList _ => "list"
  | PyDict _ => "dict"
  | PyObject cls _ => cls
  end.

Definition demo_type_error_text (fname : string) (failure : BindingFailure)
  : string :=
  match failure with
  | NotAMapping v =>
      "__main__." ++ fname ++ "() argument after ** must be a mapping, not "
      ++ type_name v
  | RepeatedKeyword k =>
      "__main__." ++ fname ++ "() got multiple values for keyword argument "
      ++ quoted k
  | UnexpectedKeyword k =>
      fname ++ "() got an unexpected keyword argument " ++ quoted k
  | MissingArguments names =>
      fname ++ "() missing " ++ str_of_int (Z.of_nat (length names))
      ++ " required positional argument"
      ++ (if Nat.eqb (length names) 1 then EmptyString else "s")
      ++ ": " ++ name_list names
  end.

Definition demo_json_error_text (x : string) : string :=
  "Expecting value: line 1 column 1 (char 0)".

Definition demo_missing_key_text : string :=
  "The api_key client option must be set either by passing api_key to the client or by setting the OPENAI_API_KEY environment variable".

Definition demo_env (replies : list (Result string)) (shape : OutputShape)
  (budget : nat) : Environment :=
  {| py_repr := demo_repr;
     json_loads := demo_json_loads;
     json_error_text := demo_json_error_text;
     type_error_text := demo_type_error_text;
     missing_key_text := demo_missing_key_text;
     model_reply := fun n _ _ =>
                      nth n replies (Err (ModelError "connection closed"));
     hub_pull := fun _ => Ok demo_prompt;
     react_parse := demo_react_parse;
     max_iterations := budget;
     crew_prompt := fun a t ctx =>
                      role a ++ ": " ++ description t ++ newline ++ ctx;
     crew_output_shape := shape |}.

Definition action (tool input : string) : string :=
  "Action: " ++ tool ++ newline ++ "Action Input: " ++ input.

(** A process with a key, and one without. *)
Definition demo_world : World := mkWorld (Some "sk-demo") 0 0 [].
Definition keyless_world : World := mkWorld None 0 0 [].

(** The page as it first loads, with the button pressed. *)
Definition demo_ui (framework : string) : UIState :=
  mkUIState "gpt-4" (8 # 10)%Q framework
    "The Future of AI in Content Creation" "marketing professionals"
    "insightful yet accessible" 1200
    "AI content creation, future of marketing, automated content" true.

(** An environment whose model service never answers. *)
Definition quiet_env : Environment := demo_env [] PlainText 15.

(** The model first answers out of format, then asks for the outline with
    a well-formed payload, then declares its answer. *)
Definition outline_request : string :=
  action "OutlineGenerator"
         (json_object [("topic", "AI"); ("audience", "marketers")]).

Definition recovery_env : Environment :=
  demo_env [ Ok "I should start with an outline.";
             Ok outline_request;
             Ok "1. Introduction";
             Ok "Final Answer: done" ] PlainText 15.

(** The model asks for the outline without naming the audience; had the
    loop gone on, its next reply would have declared the answer. *)
Definition missing_key_env : Environment :=
  demo_env [ Ok (action "OutlineGenerator" (json_object [("topic", "AI")]));
             Ok "Final Answer: done" ] PlainText 15.

(** The same with a key the stage function does not declare. *)
Definition extra_key_env : Environment :=
  demo_env [ Ok (action "OutlineGenerator"
                   (json_object [("topic", "AI"); ("audience", "marketers");
                                 ("style", "dry")]));
             Ok "Final Answer: done" ] PlainText 15.

(** The three-step process: outline, post, SEO pass, then the answer. *)
Definition blog_request : string :=
  action "BlogWriter"
         (json_object [("topic", "AI"); ("audience", "marketers");
                       ("tone", "dry"); ("word_count", "500");
                       ("keywords", "ai")]).

Definition seo_request : string :=
  action "SEOOptimizer" (json_object [("text", "draft"); ("keywords", "ai")]).

Definition process_env : Environment :=
  demo_env [ Ok outline_request; Ok "1. Introduction";
             Ok blog_request; Ok "draft";
             Ok seo_request; Ok "optimized draft";
             Ok "Final Answer: optimized draft" ] PlainText 15.

(** A crew whose model writes an outline, a draft and an optimized draft,
    and one whose model fails on the first request. *)
Definition crew_env : Environment :=
  demo_env [Ok "outline"; Ok "draft"; Ok "optimized draft"] ResultObject 15.

Definition failing_crew_env : Environment :=
  demo_env [Err (ModelError "rate limit exceeded")] ResultObject 15.

Definition demo_llm : LLM := mkLLM 7 (5 # 10)%Q "gpt-3.5-turbo".

(** ** Vocabulary of the further properties *)

(** The kinds of effect. *)
Inductive Kind : Type := KClient | KRequest | KTool | KCrew | KWidget.

Definition kind (e : Event) : Kind :=
  match e with
  | EvNewClient _ => KClient
  | EvModelCall _ _ => KRequest
  | EvToolCall _ _ => KTool
  | EvKickoff _ | EvTaskStart _ _ | EvTaskComplete _ _ | EvTaskFailed _ _ =>
      KCrew
  | EvUI _ => KWidget
  end.

Definition of_kinds (ks : list Kind) (e : Event) : Prop := In (kind e) ks.

(** The widgets rendered, and the clients constructed, among some events. *)
Definition widgets (evs : list Event) : list Widget :=
  flat_map (fun e => match e with EvUI w => [w] | _ => [] end) evs.

Definition new_clients (evs : list Event) : list LLM :=
  flat_map (fun e => match e with EvNewClient c => [c] | _ => [] end) evs.

(** What has happened between world [w] and a later world [w']. *)
Definition events_since (w w' : World) : list Event :=
  skipn (length (trace w)) (trace w').

(** The name of the file the page offers for download (line 204). *)
Definition download_name (topic : string) : string :=
  "blog_post_" ++ str_prefix 20 topic ++ ".txt".

(** A topic of fifteen characters of two bytes each: fifteen times the
    letter e with an acute accent (U+00E9, encoded as the bytes 195 169). *)
Definition e_acute : string :=
  String (ascii_of_nat 195) (String (ascii_of_nat 169) EmptyString).

Definition accented_topic : string := String.concat EmptyString (repeat e_acute 15).

Definition result_widgets (topic : string) (blog_post : PyValue)
  : list Widget :=
  [ StSubheader "Generated Blog Post";
    StWrite blog_post;
    StDownloadButton "Download Blog Post" blog_post (download_name topic)
      "text/plain" ].

(** The client [main] constructs when it is entered in world [w]. *)
Definition attempt_client (ui : UIState) (w : World) : LLM :=
  mkLLM (next_id w) (ui_temperature ui) (ui_model_name ui).

(** The kind of effect proper to the selected framework: tool calls for the
    reasoning loop, crew events for the crew. *)
Definition strategy_kind (ui : UIState) : Kind :=
  if String.eqb (ui_framework ui) "LangChain" then KTool else KCrew.

(** An environment whose [json.loads] also knows a JSON array. *)
Definition array_env : Environment :=
  {| py_repr := demo_repr;
     json_loads := fun x =>
                     if String.eqb x "[1, 2]"
                     then Some (PyList [PyInt 1; PyInt 2])
                     else demo_json_loads x;
     json_error_text := demo_json_error_text;
     type_error_text := demo_type_error_text;
     missing_key_text := demo_missing_key_text;
     model_reply := fun _ _ _ => Err (ModelError "connection closed");
     hub_pull := fun _ => Ok demo_prompt;
     react_parse := demo_react_parse;
     max_iterations := 15;
     crew_prompt := fun a t ctx =>
                      role a ++ ": " ++ description t ++ newline ++ ctx;
     crew_output_shape := PlainText |}.

(** An environment in which the hub cannot be reached. *)
Definition offline_env : Environment :=
  {| py_repr := demo_repr;
     json_loads := demo_json_loads;
     json_error_text := demo_json_error_text;
     type_error_text := demo_type_error_text;
     missing_key_text := demo_missing_key_text;
     model_reply := fun _ _ _ => Ok "Final Answer: done";
     hub_pull := fun _ => Err (HubError "hub unreachable");
     react_parse := demo_react_parse;
     max_iterations := 15;
     crew_prompt := fun a t ctx =>
                      role a ++ ": " ++ description t ++ newline ++ ctx;
     crew_output_shape := PlainText |}.

(** The outline task [crewai_blog_post] builds, as the object of identity
    [id] (lines 65-71 and 90-94). *)
Definition outline_task_of (topic audience : string) (llm : LLM) (id : nat)
  : Task :=
  mkTask id
    ("Create an outline for a blog post about " ++ topic ++ " targeting "
     ++ audience)
    (mkAgent "Content Strategist" "Create compelling content outlines"
       "Expert in structuring engaging content for various audiences"
       llm true)
    "Detailed content outline with main sections, sub-sections, and key points"
    [].

Section Attempt.

Context {E : Environment}.

(** The branch of the [try] block on the selected framework, lines
    193-196. *)
Definition orchestrate (ui : UIState) (current_llm : LLM) : M PyValue :=
  if String.eqb (ui_framework ui) "LangChain" then
    langchain_blog_post (ui_topic ui) (ui_audience ui) (ui_tone ui)
      (ui_word_count ui) (ui_keywords ui) current_llm
  else
    crewai_blog_post (ui_topic ui) (ui_audience ui) (ui_tone ui)
      (ui_word_count ui) (ui_keywords ui) current_llm.

(** The [try] block up to the value of [blog_post], lines 191-196. *)
Definition attempt (ui : UIState) : M PyValue :=
  current_llm <- get_llm (ui_temperature ui) (ui_model_name ui) ;;
  orchestrate ui current_llm.

End Attempt.

(** * Properties *)

(** ** The result normalizer *)

Section Normalizer.

Context {E : Environment}.

(** C3: the normalizer is the identity on text: given a plain string it
    returns that very string. *)
Theorem clean_crewai_output_text (s : string) :
  clean_crewai_output (PyStr s) = PyStr s.
Proof. reflexivity. Qed.

Lemma clean_crewai_output_raw items v :
  dict_get items "raw" = Some v -> clean_crewai_output (PyDict items) = v.
Proof. intros H. unfold clean_crewai_output. simpl. now rewrite H. Qed.

Lemma clean_crewai_output_no_raw items :
  dict_get items "raw" = None ->
  clean_crewai_output (PyDict items) = PyStr (py_str (PyDict items)).
Proof. intros H. unfold clean_crewai_output. simpl. now rewrite H. Qed.

Lemma clean_crewai_output_other v :
  is_str v = false -> is_dict v = false ->
  clean_crewai_output v = PyStr (py_str v).
Proof.
  intros Hs Hd. unfold clean_crewai_output. rewrite Hs.
  destruct v; try reflexivity. discriminate Hd.
Qed.

(** C4: a record with a text ['raw'] field normalizes to exactly that
    text, whatever else the record holds; a record without a ['raw'] field
    normalizes to the rendering of the whole record; a value that is
    neither text nor a record normalizes to its rendering; so the result is
    always a string. *)
Theorem clean_crewai_output_cases :
  (forall items s,
      dict_get items "raw" = Some (PyStr s) ->
      clean_crewai_output (PyDict items) = PyStr s)
  /\ (forall items,
         dict_get items "raw" = None ->
         clean_crewai_output (PyDict items) = PyStr (py_str (PyDict items)))
  /\ (forall v,
         is_str v = false -> is_dict v = false ->
         clean_crewai_output v = PyStr (py_str v))
  /\ (forall v,
         raw_is_text v = true ->
         exists s, clean_crewai_output v = PyStr s).
Proof.
  split; [intros items s; apply clean_crewai_output_raw |].
  split; [exact clean_crewai_output_no_raw |].
  split; [exact clean_crewai_output_other |].
  intros v Hraw.
  destruct v as [| b | z | q | s | l | items | cls text];
    try (eexists; reflexivity).
  cbn [raw_is_text] in Hraw.
  destruct (dict_get items "raw") as [x |] eqn:Hx.
  - destruct x; try discriminate Hraw.
    eexists. apply clean_crewai_output_raw. exact Hx.
  - eexists. apply clean_crewai_output_no_raw. exact Hx.
Qed.

End Normalizer.

Lemma clean_crewai_output_cases_witness :
  clean_crewai_output (E := quiet_env)
    (PyDict [("tokens", PyInt 12); ("raw", PyStr "post")])
  = PyStr "post"
  /\ clean_crewai_output (E := quiet_env) (PyDict [("tokens", PyInt 12)])
     = PyStr "{'tokens': 12}"
  /\ clean_crewai_output (E := quiet_env) (PyInt 12) = PyStr "12"
  /\ exists s,
       clean_crewai_output (E := quiet_env) (PyObject "CrewOutput" "post")
       = PyStr s.
Proof.
  destruct (@clean_crewai_output_cases quiet_env)
    as (Hraw & Hnone & Hother & Hstr).
  split; [apply Hraw; reflexivity |].
  split; [apply (Hnone [("tokens", PyInt 12)]); reflexivity |].
  split; [apply (Hother (PyInt 12)); reflexivity |].
  apply Hstr. reflexivity.
Defined.

(** ** Effects compose *)

Section Effects.

Context {E : Environment}.

Lemma emits_ret {A : Type} (P : Event -> Prop) (a : A) : emits P (ret a).
Proof. intros w. exists []. simpl. now rewrite app_nil_r. Qed.

Lemma emits_raise {A : Type} (P : Event -> Prop) (e : Exn) :
  emits P (@raise A e).
Proof. intros w. exists []. simpl. now rewrite app_nil_r. Qed.

Lemma emits_lift {A : Type} (P : Event -> Prop) (r : Result A) :
  emits P (lift r).
Proof. intros w. exists []. simpl. now rewrite app_nil_r. Qed.

Lemma emits_fresh (P : Event -> Prop) : emits P fresh.
Proof. intros w. exists []. simpl. now rewrite app_nil_r. Qed.

Lemma emits_emit (P : Event -> Prop) (e : Event) : P e -> emits P (emit e).
Proof. intros H w. exists [e]. simpl. auto. Qed.

Lemma emits_invoke (P : Event -> Prop) (c : LLM) (p : string) :
  P (EvModelCall c p) -> emits P (invoke c p).
Proof. intros H w. exists [EvModelCall c p]. simpl. auto. Qed.

Lemma emits_bind {A B : Type} (P : Event -> Prop) (m : M A) (f : A -> M B) :
  emits P m -> (forall a, emits P (f a)) -> emits P (bind m f).
Proof.
  intros Hm Hf w. unfold bind.
  destruct (Hm w) as (evs1 & Ht1 & Hp1).
  destruct (m w) as [[a | e] w1]; simpl in Ht1.
  - destruct (Hf a w1) as (evs2 & Ht2 & Hp2).
    exists (evs1 ++ evs2)%list. rewrite Ht2, Ht1, app_assoc.
    split; [reflexivity | now apply Forall_app].
  - exists evs1. simpl. auto.
Qed.

Lemma emits_try_except {A : Type} (P : Event -> Prop) (m : M A)
  (h : Exn -> M A) :
  emits P m -> (forall e, emits P (h e)) -> emits P (try_except m h).
Proof.
  intros Hm Hh w. unfold try_except.
  destruct (Hm w) as (evs1 & Ht1 & Hp1).
  destruct (m w) as [[a | e] w1]; simpl in Ht1.
  - exists evs1. simpl. auto.
  - destruct (Hh e w1) as (evs2 & Ht2 & Hp2).
    exists (evs1 ++ evs2)%list. rewrite Ht2, Ht1, app_assoc.
    split; [reflexivity | now apply Forall_app].
Qed.

Lemma emits_weaken {A : Type} (P Q : Event -> Prop) (m : M A) :
  (forall e, P e -> Q e) -> emits P m -> emits Q m.
Proof.
  intros HPQ Hm w. destruct (Hm w) as (evs & Ht & Hp).
  exists evs. split; [exact Ht |].
  eapply Forall_impl; eauto.
Qed.

End Effects.

Create HintDb effects.
#[export] Hint Resolve emits_ret emits_raise emits_lift emits_fresh : effects.

(** Walks through a computation built from the monad's operations. *)
Ltac emits_step :=
  first
    [ solve [auto with effects]
    | apply emits_bind; [ | intro ]
    | apply emits_try_except; [ | intro ]
    | apply emits_emit
    | apply emits_invoke ].

(** ** The credential *)

Section Credential.

Context {E : Environment}.

Lemma ChatOpenAI_no_key (t : Q) (m : string) (w : World) :
  api_key w = None ->
  ChatOpenAI t m w
  = (Err (ConfigurationError missing_key_text), w).
Proof. intros H. unfold ChatOpenAI. now rewrite H. Qed.

Lemma model_calls_widgets (ws : list Widget) : model_calls (map EvUI ws) = [].
Proof. induction ws as [| x ws IH]; [reflexivity | exact IH]. Qed.

Lemma st_then {A : Type} (x : Widget) (k : M A) (w : World) :
  (st x ;;; k) w = k (rendered [x] w).
Proof. reflexivity. Qed.

Lemma rendered_rendered (ws ws' : list Widget) (w : World) :
  rendered ws' (rendered ws w) = rendered (ws ++ ws') w.
Proof.
  unfold rendered. cbn [api_key next_id calls trace].
  now rewrite map_app, app_assoc.
Qed.

(** [main] renders the page, then, when the button is pressed, the spinner
    and the [try] block under its handler. *)
Lemma main_eq (ui : UIState) (w : World) :
  main ui w
  = if ui_generate ui then
      try_except (main_try ui) (fun e => st (error_widget e)) (page_world w)
    else (Ok tt, rendered page_widgets w).
Proof.
  unfold main, sidebar, page_world.
  do 10 (rewrite st_then, ?rendered_rendered; cbn [app]).
  unfold bind at 1. rewrite st_then, rendered_rendered. cbn [app ret].
  fold title_widget. fold page_widgets.
  destruct (ui_generate ui); [| reflexivity].
  rewrite st_then, rendered_rendered. reflexivity.
Qed.

(** C1: without an API key, a run of the script ends in a configuration
    error at the module level, before [main] is entered; and a generation
    attempt, whichever framework is selected, fails with a configuration
    error and leaves the world as it found it: no orchestrator has run and
    no request has been sent to the model.  [main] shows that error, and
    sends no request either. *)
Theorem missing_key_is_configuration_error (ui : UIState) (w : World) :
  api_key w = None ->
  exists msg,
    script ui w = (Err (ConfigurationError msg), w)
    /\ main_try ui w = (Err (ConfigurationError msg), w)
    /\ (ui_generate ui = true ->
        fst (main ui w) = Ok tt
        /\ trace (snd (main ui w))
           = (trace w
              ++ map EvUI (page_widgets
                           ++ [spinner_widget;
                               StError ("Error occurred: " ++ msg)]))%list
        /\ model_calls (trace (snd (main ui w))) = model_calls (trace w)).
Proof.
  intros Hkey. exists missing_key_text.
  split; [| split].
  - unfold script, module_init, bind, os_getenv_key.
    now rewrite (ChatOpenAI_no_key _ _ w Hkey).
  - unfold main_try, get_llm, bind.
    now rewrite (ChatOpenAI_no_key _ _ w Hkey).
  - intros Hgen. rewrite main_eq, Hgen.
    unfold try_except, main_try, get_llm, bind.
    rewrite ChatOpenAI_no_key by exact Hkey.
    unfold st, emit, page_world, rendered, error_widget.
    cbn [fst snd api_key next_id calls trace exn_str].
    change [EvUI (StError ("Error occurred: " ++ missing_key_text))]
      with (map EvUI [StError ("Error occurred: " ++ missing_key_text)]).
    rewrite <- app_assoc, <- map_app, <- app_assoc. cbn [app].
    split; [reflexivity |]. split; [reflexivity |].
    unfold model_calls. rewrite filter_app.
    fold (model_calls
            (map EvUI
               (page_widgets
                ++ [spinner_widget;
                    StError ("Error occurred: " ++ missing_key_text)]))).
    rewrite model_calls_widgets. apply app_nil_r.
Qed.

End Credential.

Lemma missing_key_is_configuration_error_witness :
  api_key keyless_world = None
  /\ exists msg,
      script (E := quiet_env) (demo_ui "CrewAI") keyless_world
      = (Err (ConfigurationError msg), keyless_world)
      /\ main_try (E := quiet_env) (demo_ui "CrewAI") keyless_world
         = (Err (ConfigurationError msg), keyless_world).
Proof.
  split; [reflexivity |].
  destruct (@missing_key_is_configuration_error quiet_env
              (demo_ui "CrewAI") keyless_world eq_refl)
    as (msg & Hs & Ht & _).
  exists msg. split; assumption.
Defined.

(** ** The reasoning loop *)

Section Loop.

Context {E : Environment}.

Variable ex : AgentExecutor.
Variable input : string.

Lemma plan_eq steps w :
  plan (exec_agent ex) input steps w
  = (match turn_reply ex input steps w with
     | Ok reply => Ok (react_parse reply)
     | Err e => Err e
     end, after_turn ex input steps w).
Proof.
  unfold plan, bind, invoke, turn_reply, after_turn, after_call, turn_prompt.
  destruct (model_reply _ _ _); reflexivity.
Qed.

Lemma agent_loop_S n steps w :
  agent_loop ex input (S n) steps w
  = match turn_reply ex input steps w with
    | Err e => (Err e, after_turn ex input steps w)
    | Ok reply =>
        match react_parse reply with
        | AgentFinish answer => (Ok answer, after_turn ex input steps w)
        | AgentAction name x =>
            match perform_agent_action (exec_tools ex) name x
                    (after_turn ex input steps w) with
            | (Ok obs, w1) =>
                agent_loop ex input n (steps ++ [mkStep name x obs]) w1
            | (Err e, w1) =>
                if is_tool_invocation_error e then
                  agent_loop ex input n
                    (steps ++ [mkStep name x (exn_str e)]) w1
                else (Err e, w1)
            end
        | OutputParserException msg =>
            if handle_parsing_errors ex then
              agent_loop ex input n (steps ++ [mkStep "_Exception" msg msg])
                         (after_turn ex input steps w)
            else
              (Err (ValueError ("An output parsing error occurred. " ++ msg)),
               after_turn ex input steps w)
        end
    end.
Proof.
  simpl. unfold bind at 1. rewrite plan_eq.
  destruct (turn_reply ex input steps w) as [reply | e]; [| reflexivity].
  destruct (react_parse reply) as [name x | answer | msg]; try reflexivity.
  - unfold bind, try_except.
    destruct (perform_agent_action (exec_tools ex) name x
                (after_turn ex input steps w)) as [[obs | e] w1];
      [reflexivity |].
    destruct (is_tool_invocation_error e); reflexivity.
  - destruct (handle_parsing_errors ex); reflexivity.
Qed.

(** A final answer ends the loop with that answer. *)
Lemma agent_loop_finish n steps w reply answer :
  turn_reply ex input steps w = Ok reply ->
  react_parse reply = AgentFinish answer ->
  agent_loop ex input (S n) steps w
  = (Ok answer, after_turn ex input steps w).
Proof. intros Hr Hp. now rewrite agent_loop_S, Hr, Hp. Qed.

(** A tool call that fails on its arguments costs one iteration, and the
    loop goes on with the text of the error as the observation. *)
Lemma agent_loop_tool_recovered n steps w reply name x e w1 :
  turn_reply ex input steps w = Ok reply ->
  react_parse reply = AgentAction name x ->
  perform_agent_action (exec_tools ex) name x (after_turn ex input steps w)
  = (Err e, w1) ->
  is_tool_invocation_error e = true ->
  agent_loop ex input (S n) steps w
  = agent_loop ex input n (steps ++ [mkStep name x (exn_str e)]) w1.
Proof. intros Hr Hp Ht He. now rewrite agent_loop_S, Hr, Hp, Ht, He. Qed.

(** Any other error of a tool call, such as one of the model service,
    leaves the loop. *)
Lemma agent_loop_tool_error n steps w reply name x e w1 :
  turn_reply ex input steps w = Ok reply ->
  react_parse reply = AgentAction name x ->
  perform_agent_action (exec_tools ex) name x (after_turn ex input steps w)
  = (Err e, w1) ->
  is_tool_invocation_error e = false ->
  agent_loop ex input (S n) steps w = (Err e, w1).
Proof. intros Hr Hp Ht He. now rewrite agent_loop_S, Hr, Hp, Ht, He. Qed.

Hypothesis recover : handle_parsing_errors ex = true.

(** An intermediate turn costs one iteration and the loop goes on. *)
Lemma agent_loop_turn malformed n steps w steps1 w1 :
  Turn ex input malformed steps w steps1 w1 ->
  agent_loop ex input (S n) steps w = agent_loop ex input n steps1 w1.
Proof.
  intros [? ? reply name x obs ? Hr Hp Ht | ? ? reply msg Hr Hp];
    rewrite agent_loop_S, Hr, Hp.
  - now rewrite Ht.
  - now rewrite recover.
Qed.

Lemma agent_loop_turns m k steps w steps' w' :
  Turns ex input m k steps w steps' w' ->
  forall n, agent_loop ex input (k + n) steps w
            = agent_loop ex input n steps' w'.
Proof.
  induction 1 as [| malformed steps w steps1 w1 m k steps2 w2 Hturn _ IH];
    intros n; [reflexivity |].
  simpl plus. rewrite (agent_loop_turn _ Hturn). apply IH.
Qed.

(** If the budget runs out during the intermediate turns, the engine's stop
    message is the answer. *)
Lemma agent_loop_exhausted m k steps w steps' w' :
  Turns ex input m k steps w steps' w' ->
  forall n, n <= k ->
            exists w'', agent_loop ex input n steps w
                        = (Ok stopped_response, w'').
Proof.
  induction 1 as [| malformed steps w steps1 w1 m k steps2 w2 Hturn _ IH];
    intros n Hn.
  - assert (n = 0) by lia. subst. eexists. reflexivity.
  - destruct n as [| n]; [eexists; reflexivity |].
    rewrite (agent_loop_turn _ Hturn). apply IH. lia.
Qed.

End Loop.

(** ** Binding a payload to a stage function *)

Section Kwargs.

Context {E : Environment}.

Lemma dict_get_none items p :
  mem p (dict_keys items) = false -> dict_get items p = None.
Proof.
  unfold mem, dict_keys.
  induction items as [| [k v] items IH]; simpl; [reflexivity |].
  intros H. apply orb_false_iff in H as [Hk Hrest].
  rewrite String.eqb_sym, Hk. now apply IH.
Qed.

Lemma dict_get_some items p :
  mem p (dict_keys items) = true -> exists v, dict_get items p = Some v.
Proof.
  unfold mem, dict_keys.
  induction items as [| [k v] items IH]; simpl; [discriminate |].
  intros H. rewrite String.eqb_sym.
  destruct (String.eqb p k); [now exists v | now apply IH].
Qed.

Lemma bind_params_missing fname items params :
  forallb (fun p => mem p (dict_keys items)) params = false ->
  exists msg, bind_params fname items params = Err (TypeError msg).
Proof.
  induction params as [| p ps IH]; simpl; [discriminate |].
  intros H.
  destruct (dict_get items p) as [v |] eqn:Hget; [| eexists; reflexivity].
  destruct (mem p (dict_keys items)) eqn:Hmem.
  - destruct (IH H) as [msg Hmsg]. rewrite Hmsg. now exists msg.
  - rewrite (dict_get_none _ _ Hmem) in Hget. discriminate.
Qed.

Lemma bind_params_present fname items params :
  forallb (fun p => mem p (dict_keys items)) params = true ->
  exists vs, bind_params fname items params = Ok vs
             /\ length vs = length params.
Proof.
  induction params as [| p ps IH]; simpl; [now exists [] |].
  intros H. apply andb_true_iff in H as [Hp Hps].
  destruct (dict_get_some _ _ Hp) as [v Hv]. rewrite Hv.
  destruct (IH Hps) as (vs & Hvs & Hlen). rewrite Hvs.
  exists (v :: vs). simpl. now rewrite Hlen.
Qed.

(** A payload with a missing or an extra key does not bind. *)
Lemma call_with_kwargs_mismatch fname params items :
  keys_match params items = false ->
  exists msg, call_with_kwargs fname params (PyDict items)
              = Err (TypeError msg).
Proof.
  intros H. unfold call_with_kwargs.
  destruct (mem "llm" (dict_keys items)); [eexists; reflexivity |].
  destruct (find _ (dict_keys items)) as [k |] eqn:Hfind;
    [eexists; reflexivity |].
  apply bind_params_missing.
  unfold keys_match in H. apply andb_false_iff in H as [H | H]; [| exact H].
  exfalso.
  assert (Hall : forallb (fun k => mem k params) (dict_keys items) = true).
  { apply forallb_forall. intros k Hk.
    pose proof (find_none _ _ Hfind k Hk) as Hn. simpl in Hn.
    now apply negb_false_iff in Hn. }
  rewrite Hall in H. discriminate.
Qed.

(** A payload naming exactly the declared parameters binds them all. *)
Lemma call_with_kwargs_match fname params items :
  mem "llm" params = false ->
  keys_match params items = true ->
  exists vs, call_with_kwargs fname params (PyDict items) = Ok vs
             /\ length vs = length params.
Proof.
  intros Hllm H. unfold keys_match in H.
  apply andb_true_iff in H as [Hextra Hmissing].
  unfold call_with_kwargs.
  destruct (mem "llm" (dict_keys items)) eqn:Hmem.
  - exfalso. unfold mem in Hmem. apply existsb_exists in Hmem as (k & Hk & Heq).
    apply String.eqb_eq in Heq. subst k.
    rewrite forallb_forall in Hextra. rewrite (Hextra _ Hk) in Hllm.
    discriminate.
  - destruct (find _ (dict_keys items)) as [k |] eqn:Hfind.
    + exfalso. apply find_some in Hfind as [Hk Hneg].
      rewrite forallb_forall in Hextra. rewrite (Hextra _ Hk) in Hneg.
      discriminate.
    + now apply bind_params_present.
Qed.

Lemma find_tool_outline llm :
  exists d, find_tool (blog_tools llm) "OutlineGenerator"
            = Some (mkTool "OutlineGenerator" (outline_func llm) d).
Proof. eexists. reflexivity. Qed.

Lemma find_tool_blog llm :
  exists d, find_tool (blog_tools llm) "BlogWriter"
            = Some (mkTool "BlogWriter" (blog_func llm) d).
Proof. eexists. reflexivity. Qed.

Lemma find_tool_seo llm :
  exists d, find_tool (blog_tools llm) "SEOOptimizer"
            = Some (mkTool "SEOOptimizer" (seo_func llm) d).
Proof. eexists. reflexivity. Qed.

(** Called with mismatching keys, each of the three tools raises the
    [TypeError] of the binding, and its stage function sends no request. *)
Lemma tool_call_key_mismatch llm name params x items w :
  In (name, params) tool_params ->
  json_loads x = Some (PyDict items) ->
  keys_match params items = false ->
  exists msg,
    perform_agent_action (blog_tools llm) name x w
    = (Err (TypeError msg),
       mkWorld (api_key w) (next_id w) (calls w)
               (trace w ++ [EvToolCall name x])).
Proof.
  intros Hin Hjson Hkeys.
  simpl in Hin.
  destruct Hin as [Heq | [Heq | [Heq | []]]]; inversion Heq; subst name params;
    unfold perform_agent_action.
  - destruct (find_tool_outline llm) as [d ->]. unfold bind, emit.
    cbn [func]. unfold outline_func, bind, lift, loads. rewrite Hjson.
    destruct (call_with_kwargs_mismatch "generate_outline" _ _ Hkeys)
      as [msg Hmsg].
    rewrite Hmsg. now exists msg.
  - destruct (find_tool_blog llm) as [d ->]. unfold bind, emit.
    cbn [func]. unfold blog_func, bind, lift, loads. rewrite Hjson.
    destruct (call_with_kwargs_mismatch "generate_blog_post" _ _ Hkeys)
      as [msg Hmsg].
    rewrite Hmsg. now exists msg.
  - destruct (find_tool_seo llm) as [d ->]. unfold bind, emit.
    cbn [func]. unfold seo_func, bind, lift, loads. rewrite Hjson.
    destruct (call_with_kwargs_mismatch "seo_optimizer" _ _ Hkeys)
      as [msg Hmsg].
    rewrite Hmsg. now exists msg.
Qed.

End Kwargs.

(** ** The linear orchestrator *)

Section Linear.

Context {E : Environment}.

Variables topic audience tone : string.
Variable word_count : Z.
Variable keywords : string.
Variable llm : LLM.
Variable prompt : ReactPrompt.

Hypothesis hub : hub_pull "hwchase17/react" = Ok prompt.

Let ex : AgentExecutor := blog_executor llm prompt.
Let input : string := linear_input topic audience tone word_count keywords.

(** The orchestrator is the engine's loop, run on the engine's own budget,
    followed by the projection on the ['output'] field. *)
Lemma langchain_blog_post_loop w :
  langchain_blog_post topic audience tone word_count keywords llm w
  = match agent_loop ex input max_iterations [] w with
    | (Ok answer, w') => (Ok (PyStr answer), w')
    | (Err e, w') => (Err e, w')
    end.
Proof.
  unfold langchain_blog_post, bind, lift. rewrite hub.
  unfold executor_invoke, bind. fold (blog_executor llm prompt). fold ex.
  fold input.
  destruct (agent_loop ex input max_iterations [] w) as [[answer | e] w'];
    reflexivity.
Qed.

Lemma langchain_blog_post_output w d w' :
  executor_invoke ex input w = (Ok d, w') ->
  langchain_blog_post topic audience tone word_count keywords llm w
  = (subscript d "output", w').
Proof.
  intros H. unfold langchain_blog_post, bind, lift. rewrite hub.
  fold (blog_executor llm prompt). fold ex. fold input. now rewrite H.
Qed.

Lemma langchain_blog_post_answer m k w steps' w' reply answer :
  Turns ex input m k [] w steps' w' ->
  turn_reply ex input steps' w' = Ok reply ->
  react_parse reply = AgentFinish answer ->
  k < max_iterations ->
  langchain_blog_post topic audience tone word_count keywords llm w
  = (Ok (PyStr answer), after_turn ex input steps' w').
Proof.
  intros Hturns Hreply Hparse Hk. rewrite langchain_blog_post_loop.
  replace max_iterations with (k + S (max_iterations - S k)) by lia.
  rewrite (agent_loop_turns (ex := ex) eq_refl Hturns).
  now erewrite agent_loop_finish by eassumption.
Qed.

Lemma langchain_blog_post_stopped m k w steps' w' :
  Turns ex input m k [] w steps' w' ->
  max_iterations <= k ->
  fst (langchain_blog_post topic audience tone word_count keywords llm w)
  = Ok (PyStr stopped_response).
Proof.
  intros Hturns Hk. rewrite langchain_blog_post_loop.
  destruct (agent_loop_exhausted (ex := ex) eq_refl Hturns Hk) as [w'' Hw].
  now rewrite Hw.
Qed.

(** C7: when, among the intermediate turns of a run, the model's reply is
    malformed exactly once, and the model then declares a final answer, the
    orchestrator does not abort: it returns text, and, when the turns fit
    the engine's budget, that text is the declared answer. *)
Theorem one_malformed_turn_is_recovered k w steps' w' reply answer :
  Turns ex input 1 k [] w steps' w' ->
  turn_reply ex input steps' w' = Ok reply ->
  react_parse reply = AgentFinish answer ->
  (exists text,
      fst (langchain_blog_post topic audience tone word_count keywords llm w)
      = Ok (PyStr text))
  /\ (k < max_iterations ->
      langchain_blog_post topic audience tone word_count keywords llm w
      = (Ok (PyStr answer), after_turn ex input steps' w')).
Proof.
  intros Hturns Hreply Hparse.
  assert (Hin : k < max_iterations ->
                langchain_blog_post topic audience tone word_count keywords
                  llm w
                = (Ok (PyStr answer), after_turn ex input steps' w'))
    by (intros Hk; eapply langchain_blog_post_answer; eauto).
  split; [| exact Hin].
  destruct (Nat.lt_ge_cases k max_iterations) as [Hk | Hk].
  - exists answer. now rewrite (Hin Hk).
  - exists stopped_response. eapply langchain_blog_post_stopped; eauto.
Qed.

(** C9: the orchestrator returns the ['output'] field of the loop's result,
    which is the text of the answer the loop declares: a run whose model
    declares its answer after [k] intermediate turns returns exactly that
    answer for every [k] within the engine's own budget, whatever that
    budget is; only when the engine's budget is used up is the result the
    engine's own stop message. *)
Theorem linear_output_is_the_declared_answer m k w steps' w' reply answer :
  Turns ex input m k [] w steps' w' ->
  turn_reply ex input steps' w' = Ok reply ->
  react_parse reply = AgentFinish answer ->
  (forall d w1,
      executor_invoke ex input w = (Ok d, w1) ->
      langchain_blog_post topic audience tone word_count keywords llm w
      = (subscript d "output", w1))
  /\ (k < max_iterations ->
      langchain_blog_post topic audience tone word_count keywords llm w
      = (Ok (PyStr answer), after_turn ex input steps' w'))
  /\ (max_iterations <= k ->
      fst (langchain_blog_post topic audience tone word_count keywords llm w)
      = Ok (PyStr stopped_response)).
Proof.
  intros Hturns Hreply Hparse.
  split; [intros d w1; apply langchain_blog_post_output |].
  split; intros Hk.
  - eapply langchain_blog_post_answer; eauto.
  - eapply langchain_blog_post_stopped; eauto.
Qed.

(** C2: when the model asks for one of the three tools with a payload
    whose keys are not exactly the parameter names of the stage function,
    that tool call fails, with a [TypeError] raised before the stage
    function sends any request, and it fails alone: the run is not aborted,
    the orchestrator goes on as the loop does from the next turn, with the
    text of the error as the observation of the failed call; in particular,
    if the model then declares its answer, the orchestrator returns it. *)
Theorem key_mismatch_fails_only_the_tool_call m k w steps' w' reply name
  params x items :
  Turns ex input m k [] w steps' w' ->
  k < max_iterations ->
  turn_reply ex input steps' w' = Ok reply ->
  react_parse reply = AgentAction name x ->
  In (name, params) tool_params ->
  json_loads x = Some (PyDict items) ->
  keys_match params items = false ->
  exists msg,
    perform_agent_action (blog_tools llm) name x
      (after_turn ex input steps' w')
    = (Err (TypeError msg),
       after_tool_call name x (after_turn ex input steps' w'))
    /\ langchain_blog_post topic audience tone word_count keywords llm w
       = match agent_loop ex input (max_iterations - S k)
                 (steps' ++ [mkStep name x msg])
                 (after_tool_call name x (after_turn ex input steps' w'))
         with
         | (Ok answer, w2) => (Ok (PyStr answer), w2)
         | (Err e, w2) => (Err e, w2)
         end
    /\ (forall reply' answer,
           S k < max_iterations ->
           turn_reply ex input (steps' ++ [mkStep name x msg])
             (after_tool_call name x (after_turn ex input steps' w'))
           = Ok reply' ->
           react_parse reply' = AgentFinish answer ->
           langchain_blog_post topic audience tone word_count keywords llm w
           = (Ok (PyStr answer),
              after_turn ex input (steps' ++ [mkStep name x msg])
                (after_tool_call name x (after_turn ex input steps' w')))).
Proof.
  intros Hturns Hk Hreply Hparse Hin Hjson Hkeys.
  destruct (@tool_call_key_mismatch E llm name params x items
              (after_turn ex input steps' w') Hin Hjson Hkeys)
    as [msg Hcall].
  fold (after_tool_call name x (after_turn ex input steps' w')) in Hcall.
  exists msg. split; [exact Hcall |].
  assert (Hrun : langchain_blog_post topic audience tone word_count keywords
                   llm w
                 = match agent_loop ex input (max_iterations - S k)
                           (steps' ++ [mkStep name x msg])
                           (after_tool_call name x
                              (after_turn ex input steps' w'))
                   with
                   | (Ok answer, w2) => (Ok (PyStr answer), w2)
                   | (Err e, w2) => (Err e, w2)
                   end).
  { rewrite langchain_blog_post_loop.
    replace max_iterations with (k + S (max_iterations - S k)) at 1 by lia.
    rewrite (agent_loop_turns (ex := ex) eq_refl Hturns).
    erewrite agent_loop_tool_recovered by (try eassumption; reflexivity).
    reflexivity. }
  split; [exact Hrun |].
  intros reply' answer Hk' Hreply' Hparse'. rewrite Hrun.
  replace (max_iterations - S k) with (S (max_iterations - S (S k))) by lia.
  now erewrite agent_loop_finish by eassumption.
Qed.

End Linear.

(** The run of [recovery_env]: one malformed turn, one action, then the
    answer. *)
Lemma recovery_turns :
  exists steps' w',
    Turns (E := recovery_env)
          (blog_executor (E := recovery_env) demo_llm demo_prompt)
          (linear_input "AI" "marketers" "dry" 500 "ai")
          1 2 [] demo_world steps' w'
    /\ turn_reply (E := recovery_env)
                  (blog_executor (E := recovery_env) demo_llm demo_prompt)
                  (linear_input "AI" "marketers" "dry" 500 "ai") steps' w'
       = Ok "Final Answer: done".
Proof.
  eexists. eexists. split.
  - eapply (@Turns_more recovery_env _ _ true _ _ _ _ 0 1).
    + eapply Turn_malformed; reflexivity.
    + eapply (@Turns_more recovery_env _ _ false _ _ _ _ 0 0).
      * eapply Turn_action; reflexivity.
      * apply Turns_none.
  - reflexivity.
Defined.

Lemma one_malformed_turn_is_recovered_witness :
  fst (langchain_blog_post (E := recovery_env) "AI" "marketers" "dry" 500 "ai"
         demo_llm demo_world)
  = Ok (PyStr "done").
Proof.
  destruct recovery_turns as (steps' & w' & Hturns & Hreply).
  destruct (@one_malformed_turn_is_recovered recovery_env
              "AI" "marketers" "dry" 500%Z "ai" demo_llm demo_prompt eq_refl
              2 demo_world steps' w' "Final Answer: done" "done"
              Hturns Hreply eq_refl) as [_ Hanswer].
  rewrite Hanswer; [reflexivity | vm_compute; lia].
Defined.

(** The run of [process_env]: the three tools in turn, then the answer. *)
Lemma process_turns :
  exists steps' w',
    Turns (E := process_env)
          (blog_executor (E := process_env) demo_llm demo_prompt)
          (linear_input "AI" "marketers" "dry" 500 "ai")
          0 3 [] demo_world steps' w'
    /\ map step_tool steps' = ["OutlineGenerator"; "BlogWriter"; "SEOOptimizer"]
    /\ turn_reply (E := process_env)
                  (blog_executor (E := process_env) demo_llm demo_prompt)
                  (linear_input "AI" "marketers" "dry" 500 "ai") steps' w'
       = Ok "Final Answer: optimized draft".
Proof.
  eexists. eexists. split; [| split].
  - eapply (@Turns_more process_env _ _ false _ _ _ _ 0 2);
      [eapply Turn_action; reflexivity |].
    eapply (@Turns_more process_env _ _ false _ _ _ _ 0 1);
      [eapply Turn_action; reflexivity |].
    eapply (@Turns_more process_env _ _ false _ _ _ _ 0 0);
      [eapply Turn_action; reflexivity |].
    apply Turns_none.
  - reflexivity.
  - reflexivity.
Defined.

Lemma linear_output_is_the_declared_answer_witness :
  fst (langchain_blog_post (E := process_env) "AI" "marketers" "dry" 500 "ai"
         demo_llm demo_world)
  = Ok (PyStr "optimized draft").
Proof.
  destruct process_turns as (steps' & w' & Hturns & _ & Hreply).
  destruct (@linear_output_is_the_declared_answer process_env
              "AI" "marketers" "dry" 500%Z "ai" demo_llm demo_prompt eq_refl
              0 3 demo_world steps' w' "Final Answer: optimized draft"
              "optimized draft" Hturns Hreply eq_refl) as (_ & Hanswer & _).
  rewrite Hanswer; [reflexivity | vm_compute; lia].
Defined.

Lemma key_mismatch_fails_only_the_tool_call_witness :
  fst (langchain_blog_post (E := missing_key_env) "AI" "marketers" "dry" 500
         "ai" demo_llm demo_world)
  = Ok (PyStr "done")
  /\ calls (snd (langchain_blog_post (E := missing_key_env) "AI" "marketers"
                   "dry" 500 "ai" demo_llm demo_world))
     = 2.
Proof.
  destruct (@key_mismatch_fails_only_the_tool_call missing_key_env
              "AI" "marketers" "dry" 500%Z "ai" demo_llm demo_prompt eq_refl
              0 0 demo_world [] demo_world
              (action "OutlineGenerator" (json_object [("topic", "AI")]))
              "OutlineGenerator" outline_params
              (json_object [("topic", "AI")]) [("topic", PyStr "AI")])
    as (msg & _ & _ & Hanswer).
  - apply Turns_none.
  - vm_compute. lia.
  - reflexivity.
  - reflexivity.
  - left. reflexivity.
  - reflexivity.
  - reflexivity.
  - rewrite (Hanswer "Final Answer: done" "done");
      [split; reflexivity | vm_compute; lia | reflexivity | reflexivity].
Defined.

(** The run of [missing_key_env], and the same with an undeclared key: the
    failed call is answered with the text of its error, and the answer the
    model declares next is returned. *)
Example key_mismatch_scenario :
  langchain_blog_post (E := missing_key_env) "AI" "marketers" "dry" 500 "ai"
    demo_llm demo_world
  = (Ok (PyStr "done"),
     mkWorld (Some "sk-demo") 0 2
       [ EvModelCall demo_llm
           (demo_prompt
              (map (fun t => (tool_name t, tool_description t))
                   (blog_tools (E := missing_key_env) demo_llm))
              (linear_input "AI" "marketers" "dry" 500 "ai") []);
         EvToolCall "OutlineGenerator" (json_object [("topic", "AI")]);
         EvModelCall demo_llm
           (demo_prompt
              (map (fun t => (tool_name t, tool_description t))
                   (blog_tools (E := missing_key_env) demo_llm))
              (linear_input "AI" "marketers" "dry" 500 "ai")
              [mkStep "OutlineGenerator" (json_object [("topic", "AI")])
                 "generate_outline() missing 1 required positional argument: 'audience'"]) ])
  /\ fst (langchain_blog_post (E := extra_key_env) "AI" "marketers" "dry" 500
            "ai" demo_llm demo_world)
     = Ok (PyStr "done").
Proof. split; vm_compute; reflexivity. Qed.

(** ** The crew *)

Section CrewRun.

Context {E : Environment}.

Lemma execute_tasks_cons t rest outputs last w :
  execute_tasks (t :: rest) outputs last w
  = match gather_context outputs (context t) with
    | Err e => (Err e, w)
    | Ok ctxs =>
        let ctx := String.concat newline ctxs in
        match task_reply (calls w) t ctx with
        | Err e =>
            (Err e,
             mkWorld (api_key w) (next_id w) (S (calls w))
               (trace w ++ [EvTaskStart t ctx; task_call t ctx;
                            EvTaskFailed t e]))
        | Ok out =>
            execute_tasks rest ((task_id t, out) :: outputs) out
              (mkWorld (api_key w) (next_id w) (S (calls w))
                 (trace w ++ [EvTaskStart t ctx; task_call t ctx;
                              EvTaskComplete t out]))
        end
    end.
Proof.
  simpl. unfold bind at 1. unfold lift at 1.
  destruct (gather_context outputs (context t)) as [ctxs | e]; [| reflexivity].
  unfold bind, emit, try_except, execute_task, invoke, raise, task_reply,
    task_call.
  cbn [api_key next_id calls trace].
  destruct (model_reply (calls w) (agent_llm (agent t))
              (crew_prompt (agent t) t (String.concat newline ctxs)))
    as [out | e]; cbn [api_key next_id calls trace];
    repeat rewrite <- app_assoc; reflexivity.
Qed.

(** The coordinator on a chain of three. *)
Lemma execute_chain t1 t2 t3 w :
  context t1 = [] ->
  context t2 = [task_id t1] ->
  context t3 = [task_id t2] ->
  exists evs,
    trace (snd (execute_tasks [t1; t2; t3] [] EmptyString w))
    = (trace w ++ evs)%list
    /\ ChainRun t1 t2 t3 (calls w)
         (fst (execute_tasks [t1; t2; t3] [] EmptyString w)) evs.
Proof.
  intros H1 H2 H3.
  rewrite execute_tasks_cons, H1. cbn [gather_context String.concat].
  destruct (task_reply (calls w) t1 EmptyString) as [o1 | e] eqn:R1.
  2:{ eexists. split; [reflexivity |]. now apply Chain_first_fails. }
  rewrite execute_tasks_cons, H2.
  cbn [gather_context lookup_output]. rewrite Nat.eqb_refl.
  cbn [String.concat calls trace].
  destruct (task_reply (S (calls w)) t2 o1) as [o2 | e] eqn:R2.
  2:{ eexists. cbn [fst snd trace]. rewrite <- app_assoc.
      split; [reflexivity |]. now apply Chain_second_fails with (o1 := o1). }
  rewrite execute_tasks_cons, H3.
  cbn [gather_context lookup_output]. rewrite Nat.eqb_refl.
  cbn [String.concat calls trace].
  destruct (task_reply (S (S (calls w))) t3 o2) as [o3 | e] eqn:R3.
  2:{ eexists. cbn [fst snd trace]. rewrite <- !app_assoc.
      split; [reflexivity |].
      now apply Chain_third_fails with (o1 := o1) (o2 := o2). }
  eexists. cbn [execute_tasks ret fst snd trace]. rewrite <- !app_assoc.
  split; [reflexivity |].
  now apply Chain_completes with (o1 := o1) (o2 := o2).
Qed.

(** The normalizer undoes whatever shape the framework wraps the text in. *)
Lemma clean_crew_result shape raw :
  clean_crewai_output (crew_result shape raw) = PyStr raw.
Proof. destruct shape; reflexivity. Qed.

(** The crew orchestrator, symbolically: it kicks off the blog crew, whose
    run is one of the runs of a chain, and returns the final text. *)
Lemma crewai_blog_post_run topic audience tone word_count keywords llm w :
  exists crew t1 t2 t3 evs r,
    blog_crew llm (next_id w) crew t1 t2 t3
    /\ trace (snd (crewai_blog_post topic audience tone word_count keywords
                     llm w))
       = (trace w ++ EvKickoff crew :: evs)%list
    /\ ChainRun t1 t2 t3 (calls w) r evs
    /\ fst (crewai_blog_post topic audience tone word_count keywords llm w)
       = match r with Ok o => Ok (PyStr o) | Err e => Err e end.
Proof.
  unfold crewai_blog_post, new_task, kickoff, bind, fresh, ret, emit.
  cbv beta iota zeta. cbn [next_id api_key calls trace map task_id tasks].
  match goal with
  | |- context [execute_tasks [?a; ?b; ?c] _ _ _] =>
      set (t1 := a); set (t2 := b); set (t3 := c)
  end.
  match goal with
  | |- context [EvKickoff ?c] => set (crew := c)
  end.
  match goal with
  | |- context [execute_tasks _ _ _ ?w0] => set (w3 := w0)
  end.
  exists crew, t1, t2, t3.
  destruct (@execute_chain t1 t2 t3 w3) as (evs & Htrace & Hrun);
    try reflexivity.
  exists evs, (fst (execute_tasks [t1; t2; t3] [] EmptyString w3)).
  split; [repeat split; repeat constructor |].
  destruct (execute_tasks [t1; t2; t3] [] EmptyString w3) as [[o | e] w4];
    cbv beta iota; cbn [fst snd] in *; rewrite Htrace; subst w3;
    cbn [trace calls] in *; rewrite <- app_assoc;
    (split; [reflexivity |]); (split; [exact Hrun |]).
  - now rewrite clean_crew_result.
  - reflexivity.
Qed.

(** The tasks of the blog crew are three distinct objects. *)
Lemma blog_crew_distinct llm id crew t1 t2 t3 :
  blog_crew llm id crew t1 t2 t3 -> t1 <> t2 /\ t2 <> t3 /\ t1 <> t3.
Proof.
  intros (Htasks & _ & _ & _ & Hids & _). rewrite Htasks in Hids.
  cbn [map] in Hids. injection Hids as H1 H2 H3.
  repeat split; intros Heq; subst; lia.
Qed.

Lemma blog_crew_llm llm id crew t1 t2 t3 :
  blog_crew llm id crew t1 t2 t3 ->
  agent_llm (agent t1) = llm /\ agent_llm (agent t2) = llm
  /\ agent_llm (agent t3) = llm.
Proof.
  intros (_ & Hagents & _ & Hllm & _). rewrite Hagents in Hllm.
  inversion Hllm as [| ? ? H1 Hllm1]; subst.
  inversion Hllm1 as [| ? ? H2 Hllm2]; subst.
  inversion Hllm2 as [| ? ? H3 _]; subst. auto.
Qed.

(** Nothing in a run of the chain involves a client other than the one the
    three agents are bound to. *)
Lemma chain_bound llm t1 t2 t3 n r evs :
  agent_llm (agent t1) = llm -> agent_llm (agent t2) = llm ->
  agent_llm (agent t3) = llm ->
  ChainRun t1 t2 t3 n r evs -> Forall (bound_to llm) evs.
Proof.
  intros L1 L2 L3 Hrun.
  inversion Hrun; subst; unfold task_call;
    repeat constructor; cbn [bound_to]; assumption.
Qed.

Lemma crewai_blog_post_emits topic audience tone word_count keywords llm :
  emits (bound_to llm)
        (crewai_blog_post topic audience tone word_count keywords llm).
Proof.
  intros w.
  destruct (crewai_blog_post_run topic audience tone word_count keywords llm w)
    as (crew & t1 & t2 & t3 & evs & r & Hcrew & Htrace & Hrun & _).
  destruct (blog_crew_llm Hcrew) as (L1 & L2 & L3).
  exists (EvKickoff crew :: evs). split; [exact Htrace |].
  constructor; [| exact (chain_bound L1 L2 L3 Hrun)].
  destruct Hcrew as (Htasks & _ & _ & Hllm & _).
  cbn [bound_to]. split; [exact Hllm |].
  rewrite Htasks. repeat constructor; assumption.
Qed.

End CrewRun.

(** Case analysis on the position of an event in an explicit list. *)
Ltac positions H :=
  repeat
    match type of H with
    | nth_error _ ?i = Some _ =>
        destruct i as [| i]; cbn [nth_error] in H; try discriminate H
    end.

Section ChainProperties.

Context {E : Environment}.

Variables t1 t2 t3 : Task.
Variable n : nat.

(** Every task that starts is a task of the chain, and what its agent sends
    to the model right away is the prompt built from the context it was
    started with. *)
Lemma chain_inputs r evs :
  ChainRun t1 t2 t3 n r evs ->
  forall i t c,
    at_position evs i (EvTaskStart t c) ->
    In t [t1; t2; t3] /\ at_position evs (S i) (task_call t c).
Proof.
  unfold at_position.
  intros Hrun; inversion Hrun; subst; intros i t c Hpos; positions Hpos;
    inversion Hpos; subst; cbn [In nth_error]; auto.
Qed.

(** A failed task is the last thing that happens, and its error is the
    outcome of the run. *)
Lemma chain_fail_fast r evs :
  ChainRun t1 t2 t3 n r evs ->
  forall i t e,
    at_position evs i (EvTaskFailed t e) ->
    r = Err e /\ length evs = S i.
Proof.
  unfold at_position.
  intros Hrun; inversion Hrun; subst; intros i t e' Hpos; positions Hpos;
    inversion Hpos; subst; auto.
Qed.

(** If the first task fails, the other two never start. *)
Lemma chain_first_failure r evs e :
  ChainRun t1 t2 t3 n r evs ->
  task_reply n t1 EmptyString = Err e ->
  r = Err e
  /\ evs = [EvTaskStart t1 EmptyString; task_call t1 EmptyString;
            EvTaskFailed t1 e].
Proof.
  intros Hrun Hfail; inversion Hrun; subst; try congruence.
  assert (e0 = e) by congruence. subst. auto.
Qed.

(** A run has a result only if all three tasks completed, and the result
    is the output of the last one. *)
Lemma chain_result evs o :
  ChainRun t1 t2 t3 n (Ok o) evs ->
  exists o1 o2,
    evs = [ EvTaskStart t1 EmptyString; task_call t1 EmptyString;
            EvTaskComplete t1 o1;
            EvTaskStart t2 o1; task_call t2 o1; EvTaskComplete t2 o2;
            EvTaskStart t3 o2; task_call t3 o2; EvTaskComplete t3 o ].
Proof. intros Hrun; inversion Hrun; subst. now exists o1, o2. Qed.

Hypothesis distinct12 : t1 <> t2.
Hypothesis distinct23 : t2 <> t3.
Hypothesis distinct13 : t1 <> t3.

(** In every run of the chain, a task starts only after the task it reads
    has completed, and the context it starts with is that task's output. *)
Lemma chain_order r evs :
  ChainRun t1 t2 t3 n r evs ->
  (forall c, preceded_by evs (EvTaskStart t2 c) (EvTaskComplete t1 c))
  /\ (forall c, preceded_by evs (EvTaskStart t3 c) (EvTaskComplete t2 c)).
Proof.
  unfold preceded_by, at_position.
  intros Hrun; inversion Hrun; subst; split; intros c i Hpos; positions Hpos;
    inversion Hpos; subst; try congruence;
    first [ exists 2; split; [lia | reflexivity]
          | exists 5; split; [lia | reflexivity] ].
Qed.

End ChainProperties.

(** ** The crew orchestrator *)

Section CrewOrchestrator.

Context {E : Environment}.

Variables topic audience tone : string.
Variable word_count : Z.
Variable keywords : string.
Variable llm : LLM.

(** C5: in every run of the crew orchestrator, whatever the request and
    however the model replies, the writing task starts only after the
    outline task has completed and the SEO task only after the writing task
    has completed; the context a task starts with is the output of the task
    it depends on, and the prompt its agent sends is built from that
    context. *)
Theorem crew_runs_tasks_in_dependency_order (w : World) :
  exists crew outline_task writing_task seo_task evs,
    blog_crew llm (next_id w) crew outline_task writing_task seo_task
    /\ trace (snd (crewai_blog_post topic audience tone word_count keywords
                     llm w))
       = (trace w ++ EvKickoff crew :: evs)%list
    /\ (forall c, preceded_by evs (EvTaskStart writing_task c)
                              (EvTaskComplete outline_task c))
    /\ (forall c, preceded_by evs (EvTaskStart seo_task c)
                              (EvTaskComplete writing_task c))
    /\ (forall i t c,
           at_position evs i (EvTaskStart t c) ->
           In t (tasks crew) /\ at_position evs (S i) (task_call t c)).
Proof.
  destruct (crewai_blog_post_run topic audience tone word_count keywords llm w)
    as (crew & t1 & t2 & t3 & evs & r & Hcrew & Htrace & Hrun & _).
  exists crew, t1, t2, t3, evs.
  destruct (blog_crew_distinct Hcrew) as (H12 & H23 & H13).
  destruct (chain_order H12 H23 H13 Hrun) as [Hw Hs].
  split; [exact Hcrew |]. split; [exact Htrace |].
  split; [exact Hw |]. split; [exact Hs |].
  intros i t c Hpos. destruct Hcrew as (-> & _).
  eapply chain_inputs; eauto.
Qed.

(** C6: in every run of the crew orchestrator a failing task is the last
    thing that happens and its error is what the orchestrator raises; if
    the outline task fails, nothing but its start, its request and its
    failure happens, so the writing and SEO tasks never start; and the
    orchestrator returns a value only when all three tasks completed, that
    value being the text of the last one. *)
Theorem crew_task_failure_aborts_the_run (w : World) :
  exists crew outline_task writing_task seo_task evs,
    blog_crew llm (next_id w) crew outline_task writing_task seo_task
    /\ trace (snd (crewai_blog_post topic audience tone word_count keywords
                     llm w))
       = (trace w ++ EvKickoff crew :: evs)%list
    /\ (forall i t e,
           at_position evs i (EvTaskFailed t e) ->
           fst (crewai_blog_post topic audience tone word_count keywords
                  llm w) = Err e
           /\ length evs = S i)
    /\ (forall e,
           task_reply (calls w) outline_task EmptyString = Err e ->
           fst (crewai_blog_post topic audience tone word_count keywords
                  llm w) = Err e
           /\ evs = [ EvTaskStart outline_task EmptyString;
                      task_call outline_task EmptyString;
                      EvTaskFailed outline_task e ])
    /\ (forall v,
           fst (crewai_blog_post topic audience tone word_count keywords
                  llm w) = Ok v ->
           exists o1 o2 o3,
             v = PyStr o3
             /\ evs = [ EvTaskStart outline_task EmptyString;
                        task_call outline_task EmptyString;
                        EvTaskComplete outline_task o1;
                        EvTaskStart writing_task o1;
                        task_call writing_task o1;
                        EvTaskComplete writing_task o2;
                        EvTaskStart seo_task o2;
                        task_call seo_task o2;
                        EvTaskComplete seo_task o3 ]).
Proof.
  destruct (crewai_blog_post_run topic audience tone word_count keywords llm w)
    as (crew & t1 & t2 & t3 & evs & r & Hcrew & Htrace & Hrun & Hres).
  exists crew, t1, t2, t3, evs.
  split; [exact Hcrew |]. split; [exact Htrace |].
  rewrite Hres. split; [| split].
  - intros i t e Hpos.
    destruct (chain_fail_fast Hrun Hpos) as [-> Hlen]. auto.
  - intros e Hfail.
    destruct (chain_first_failure Hrun Hfail) as [-> Hevs]. auto.
  - intros v Hv. destruct r as [o | e]; [| discriminate Hv].
    injection Hv as <-.
    destruct (chain_result Hrun) as (o1 & o2 & Hevs).
    now exists o1, o2, o.
Qed.

(** C8: the crew the orchestrator kicks off has exactly three agents, the
    strategist, the writer and the SEO specialist, each bound to the one
    client the orchestrator was given, hence to the same model name and
    temperature; and nothing in the run involves another client: none is
    constructed, every task belongs to an agent bound to that client and
    every request goes through it. *)
Theorem crew_agents_share_the_client (w : World) :
  exists crew outline_task writing_task seo_task evs,
    blog_crew llm (next_id w) crew outline_task writing_task seo_task
    /\ trace (snd (crewai_blog_post topic audience tone word_count keywords
                     llm w))
       = (trace w ++ EvKickoff crew :: evs)%list
    /\ map role (agents crew)
       = ["Content Strategist"; "Content Writer"; "SEO Specialist"]
    /\ Forall (fun a => agent_llm a = llm
                        /\ model_name (agent_llm a) = model_name llm
                        /\ temperature (agent_llm a) = temperature llm)
              (agents crew)
    /\ Forall (bound_to llm) (EvKickoff crew :: evs).
Proof.
  destruct (crewai_blog_post_run topic audience tone word_count keywords llm w)
    as (crew & t1 & t2 & t3 & evs & r & Hcrew & Htrace & Hrun & _).
  exists crew, t1, t2, t3, evs.
  destruct (blog_crew_llm Hcrew) as (L1 & L2 & L3).
  pose proof Hcrew as (Htasks & Hagents & Hroles & Hllm & _).
  split; [exact Hcrew |]. split; [exact Htrace |]. split; [exact Hroles |].
  split.
  - eapply Forall_impl; [| exact Hllm].
    intros a ->. auto.
  - constructor; [| exact (chain_bound L1 L2 L3 Hrun)].
    cbn [bound_to]. split; [exact Hllm |].
    rewrite Htasks. repeat constructor; assumption.
Qed.

End CrewOrchestrator.

(** ** Which client a run uses *)

Section Clients.

Context {E : Environment}.

Variable c : LLM.

Lemma generate_outline_emits topic audience :
  emits (bound_to c) (generate_outline topic audience c).
Proof. apply emits_invoke. reflexivity. Qed.

Lemma generate_blog_post_emits topic audience tone word_count keywords :
  emits (bound_to c)
        (generate_blog_post topic audience tone word_count keywords c).
Proof. apply emits_invoke. reflexivity. Qed.

Lemma seo_optimizer_emits text keywords :
  emits (bound_to c) (seo_optimizer text keywords c).
Proof. apply emits_invoke. reflexivity. Qed.

(** The three tools close over the orchestrator's own client. *)
Lemma blog_tools_emit t x :
  In t (blog_tools c) -> emits (bound_to c) (func t x).
Proof.
  intros [<- | [<- | [<- | []]]]; cbn [func].
  - unfold outline_func. repeat emits_step.
    destruct a0 as [| ? [| ? [| ? ?]]]; try apply emits_raise.
    apply generate_outline_emits.
  - unfold blog_func. repeat emits_step.
    destruct a0 as [| ? [| ? [| ? [| ? [| ? [| ? ?]]]]]];
      try apply emits_raise.
    apply generate_blog_post_emits.
  - unfold seo_func. repeat emits_step.
    destruct a0 as [| ? [| ? [| ? ?]]]; try apply emits_raise.
    apply seo_optimizer_emits.
Qed.

Lemma perform_agent_action_emits name x :
  emits (bound_to c) (perform_agent_action (blog_tools c) name x).
Proof.
  unfold perform_agent_action.
  destruct (find_tool (blog_tools c) name) as [t |] eqn:Hfind.
  - apply find_some in Hfind as [Hin _].
    apply emits_bind; [apply emits_emit; exact I |].
    intros _. now apply blog_tools_emit.
  - apply emits_ret.
Qed.

(** Every request of the reasoning loop, by the loop itself or by a tool,
    goes through the orchestrator's client. *)
Lemma agent_loop_emits prompt input n :
  forall steps,
    emits (bound_to c) (agent_loop (blog_executor c prompt) input n steps).
Proof.
  induction n as [| n IH]; intros steps; cbn [agent_loop].
  - apply emits_ret.
  - apply emits_bind.
    + unfold plan. apply emits_bind; [| intros; apply emits_ret].
      apply emits_invoke. reflexivity.
    + intros [name x | answer | msg].
      * apply emits_bind; [| intros obs; apply IH].
        apply emits_try_except; [apply perform_agent_action_emits |].
        intros e. destruct (is_tool_invocation_error e);
          [apply emits_ret | apply emits_raise].
      * apply emits_ret.
      * cbn [handle_parsing_errors blog_executor]. apply IH.
Qed.

Lemma langchain_blog_post_emits topic audience tone word_count keywords :
  emits (bound_to c)
        (langchain_blog_post topic audience tone word_count keywords c).
Proof.
  unfold langchain_blog_post.
  apply emits_bind; [apply emits_lift |]. intros prompt.
  apply emits_bind; [| intros; apply emits_lift].
  unfold executor_invoke.
  apply emits_bind; [| intros; apply emits_ret].
  apply (agent_loop_emits prompt).
Qed.

(** What follows the construction of the client in the [try] block. *)
Lemma main_try_rest_emits ui :
  emits (bound_to c)
    (blog_post <-
       (if String.eqb (ui_framework ui) "LangChain" then
          langchain_blog_post (ui_topic ui) (ui_audience ui) (ui_tone ui)
            (ui_word_count ui) (ui_keywords ui) c
        else
          crewai_blog_post (ui_topic ui) (ui_audience ui) (ui_tone ui)
            (ui_word_count ui) (ui_keywords ui) c) ;;
     st (StSubheader "Generated Blog Post") ;;;
     st (StWrite blog_post) ;;;
     st (StDownloadButton "Download Blog Post" blog_post
           ("blog_post_" ++ str_prefix 20 (ui_topic ui) ++ ".txt")
           "text/plain")).
Proof.
  apply emits_bind.
  - destruct (String.eqb (ui_framework ui) "LangChain").
    + apply langchain_blog_post_emits.
    + apply crewai_blog_post_emits.
  - intros blog_post. unfold st. repeat emits_step; exact I.
Qed.

End Clients.

Section Script.

Context {E : Environment}.

Lemma run_client_fresh ui w : run_client ui w <> default_client w.
Proof.
  intros H. apply (f_equal llm_id) in H. cbn in H. lia.
Qed.

(** C10: in a run of the script the client built at the module level
    (temperature 0.8, model gpt-4) is constructed and then takes no part:
    the only other client is the one [main] constructs from the selected
    temperature and model name, a distinct object; every request to the
    model, whether sent by the reasoning loop, by a stage function behind a
    tool or by a crew agent, goes through that second client, every agent
    and task is bound to it, and no request goes through the default
    client. *)
Theorem default_client_takes_no_part (ui : UIState) (w : World) :
  run_client ui w <> default_client w
  /\ exists evs,
      trace (snd (script ui w)) = (trace w ++ evs)%list
      /\ Forall (fun e => e = EvNewClient (default_client w)
                          \/ e = EvNewClient (run_client ui w)
                          \/ bound_to (run_client ui w) e) evs
      /\ (forall p, ~ In (EvModelCall (default_client w) p) evs)
      /\ (forall key,
             api_key w = Some key -> ui_generate ui = true ->
             In (EvNewClient (default_client w)) evs
             /\ In (EvNewClient (run_client ui w)) evs).
Proof.
  split; [apply run_client_fresh |].
  assert (Hno : forall evs,
             Forall (fun e => e = EvNewClient (default_client w)
                              \/ e = EvNewClient (run_client ui w)
                              \/ bound_to (run_client ui w) e) evs ->
             forall p, ~ In (EvModelCall (default_client w) p) evs).
  { intros evs Hall p Hin. rewrite Forall_forall in Hall.
    destruct (Hall _ Hin) as [H | [H | H]]; try discriminate H.
    cbn in H. symmetry in H. exact (run_client_fresh H). }
  destruct (api_key w) as [key |] eqn:Hkey.
  2:{ exists []. unfold script, module_init, bind, os_getenv_key.
      rewrite ChatOpenAI_no_key by exact Hkey. cbn. rewrite app_nil_r.
      split; [reflexivity |]. split; [constructor |].
      split; [intros p [] |]. intros k Hk. discriminate Hk. }
  assert (Hshown : forall ws,
             Forall (fun e => e = EvNewClient (default_client w)
                              \/ e = EvNewClient (run_client ui w)
                              \/ bound_to (run_client ui w) e)
                    (map EvUI ws)).
  { intros ws. apply Forall_forall. intros e He.
    apply in_map_iff in He as (x & <- & _). cbn. auto. }
  unfold script, module_init, bind, os_getenv_key, ChatOpenAI, ret.
  rewrite Hkey. cbn [api_key next_id calls trace].
  fold (default_client w).
  rewrite main_eq.
  destruct (ui_generate ui) eqn:Hgen.
  2:{ exists ([EvNewClient (default_client w)] ++ map EvUI page_widgets)%list.
      unfold rendered. cbn [snd trace]. rewrite <- app_assoc.
      split; [reflexivity |].
      assert (Hall : Forall (fun e => e = EvNewClient (default_client w)
                                      \/ e = EvNewClient (run_client ui w)
                                      \/ bound_to (run_client ui w) e)
                       ([EvNewClient (default_client w)]
                        ++ map EvUI page_widgets)).
      { apply Forall_app. split; [| apply Hshown].
        apply Forall_cons; [auto | apply Forall_nil]. }
      split; [exact Hall |]. split; [now apply Hno |].
      intros ? _ Hf. discriminate Hf. }
  unfold try_except, main_try, get_llm. unfold bind at 1.
  unfold ChatOpenAI, page_world, rendered.
  cbn [api_key next_id calls trace].
  fold (run_client ui w).
  match goal with
  | |- context [bind ?m ?f ?w0] =>
      destruct (main_try_rest_emits (run_client ui w) ui w0)
        as (evs & Htrace & Hall);
      destruct (bind m f w0) as [[[] | e] w4]
  end; cbn [snd trace] in *.
  - exists ([EvNewClient (default_client w)]
            ++ map EvUI (page_widgets ++ [spinner_widget])
            ++ [EvNewClient (run_client ui w)] ++ evs)%list.
    rewrite Htrace. rewrite <- !app_assoc. split; [reflexivity |].
    assert (Hall' : Forall (fun e => e = EvNewClient (default_client w)
                                     \/ e = EvNewClient (run_client ui w)
                                     \/ bound_to (run_client ui w) e)
                      ([EvNewClient (default_client w)]
                       ++ map EvUI (page_widgets ++ [spinner_widget])
                       ++ [EvNewClient (run_client ui w)] ++ evs)).
    { apply Forall_app.
      split; [apply Forall_cons; [auto | apply Forall_nil] |].
      apply Forall_app. split; [apply Hshown |].
      apply Forall_app.
      split; [apply Forall_cons; [auto | apply Forall_nil] |].
      eapply Forall_impl; [| exact Hall]. cbn. auto. }
    split; [exact Hall' |]. split; [now apply Hno |].
    intros ? _ _. split; [apply in_or_app; left; cbn; auto |].
    do 2 (apply in_or_app; right). apply in_or_app. left. cbn. auto.
  - exists ([EvNewClient (default_client w)]
            ++ map EvUI (page_widgets ++ [spinner_widget])
            ++ [EvNewClient (run_client ui w)] ++ evs
            ++ map EvUI [error_widget e])%list.
    unfold st, emit. cbn [snd trace map].
    rewrite Htrace. rewrite <- !app_assoc. split; [reflexivity |].
    assert (Hall' : Forall (fun e => e = EvNewClient (default_client w)
                                     \/ e = EvNewClient (run_client ui w)
                                     \/ bound_to (run_client ui w) e)
                      ([EvNewClient (default_client w)]
                       ++ map EvUI (page_widgets ++ [spinner_widget])
                       ++ [EvNewClient (run_client ui w)] ++ evs
                       ++ [EvUI (error_widget e)])).
    { apply Forall_app.
      split; [apply Forall_cons; [auto | apply Forall_nil] |].
      apply Forall_app. split; [apply Hshown |].
      apply Forall_app.
      split; [apply Forall_cons; [auto | apply Forall_nil] |].
      apply Forall_app.
      split; [| apply Forall_cons; [cbn; auto | apply Forall_nil]].
      eapply Forall_impl; [| exact Hall]. cbn. auto. }
    split; [exact Hall' |]. split; [now apply Hno |].
    intros ? _ _. split; [apply in_or_app; left; cbn; auto |].
    do 2 (apply in_or_app; right). apply in_or_app. left. cbn. auto.
Qed.

End Script.

(** ** The properties on explicit runs *)

Lemma crew_runs_tasks_in_dependency_order_witness :
  exists crew outline_task writing_task seo_task evs,
    trace (snd (crewai_blog_post (E := crew_env) "Remote Work" "HR managers"
                  "professional" 500 "remote work, productivity"
                  demo_llm demo_world))
    = EvKickoff crew :: evs
    /\ tasks crew = [outline_task; writing_task; seo_task]
    /\ at_position evs 3 (EvTaskStart writing_task "outline")
    /\ exists j, j < 3
                 /\ at_position evs j (EvTaskComplete outline_task "outline").
Proof.
  destruct (@crew_runs_tasks_in_dependency_order crew_env
              "Remote Work" "HR managers" "professional" 500%Z
              "remote work, productivity" demo_llm demo_world)
    as (crew & t1 & t2 & t3 & evs & Hcrew & Htrace & Hwriting & _).
  exists crew, t1, t2, t3, evs.
  destruct Hcrew as (Htasks & _).
  assert (Hpos : at_position evs 3 (EvTaskStart t2 "outline")).
  { vm_compute in Htrace. injection Htrace as Hk He. subst crew evs.
    cbn in Htasks. injection Htasks as <- <- <-. reflexivity. }
  split; [exact Htrace |]. split; [exact Htasks |].
  split; [exact Hpos |]. exact (Hwriting _ _ Hpos).
Defined.

Lemma crew_task_failure_aborts_the_run_witness :
  exists crew outline_task writing_task seo_task,
    task_reply (E := failing_crew_env) 0 outline_task EmptyString
    = Err (ModelError "rate limit exceeded")
    /\ crewai_blog_post (E := failing_crew_env) "Remote Work" "HR managers"
         "professional" 500 "remote work, productivity" demo_llm demo_world
       = (Err (ModelError "rate limit exceeded"),
          mkWorld (Some "sk-demo") 3 1
            [ EvKickoff crew;
              EvTaskStart outline_task EmptyString;
              task_call (E := failing_crew_env) outline_task EmptyString;
              EvTaskFailed outline_task (ModelError "rate limit exceeded") ])
    /\ tasks crew = [outline_task; writing_task; seo_task].
Proof.
  destruct (@crew_task_failure_aborts_the_run failing_crew_env
              "Remote Work" "HR managers" "professional" 500%Z
              "remote work, productivity" demo_llm demo_world)
    as (crew & t1 & t2 & t3 & evs & Hcrew & Htrace & _ & Hfirst & _).
  exists crew, t1, t2, t3.
  assert (Hreply : task_reply (E := failing_crew_env) (calls demo_world) t1
                     EmptyString
                   = Err (ModelError "rate limit exceeded")) by reflexivity.
  destruct (Hfirst _ Hreply) as [Hres Hevs].
  destruct Hcrew as (Htasks & _).
  split; [exact Hreply |]. split; [| exact Htasks].
  subst evs.
  destruct (crewai_blog_post (E := failing_crew_env) "Remote Work"
              "HR managers" "professional" 500 "remote work, productivity"
              demo_llm demo_world) as [r [key id n tr]] eqn:Hrun.
  cbn [fst snd trace] in Hres, Htrace. subst r tr.
  apply (f_equal snd) in Hrun. vm_compute in Hrun.
  injection Hrun as <- <- <- _. reflexivity.
Defined.

Lemma default_client_takes_no_part_witness :
  api_key demo_world = Some "sk-demo"
  /\ ui_generate (demo_ui "LangChain") = true
  /\ exists evs,
      trace (snd (script (E := process_env) (demo_ui "LangChain") demo_world))
      = evs
      /\ In (EvNewClient (mkLLM 0 (8 # 10)%Q "gpt-4")) evs
      /\ In (EvNewClient (mkLLM 1 (8 # 10)%Q "gpt-4")) evs
      /\ forall p, ~ In (EvModelCall (mkLLM 0 (8 # 10)%Q "gpt-4") p) evs.
Proof.
  split; [reflexivity |]. split; [reflexivity |].
  destruct (@default_client_takes_no_part process_env (demo_ui "LangChain")
              demo_world)
    as (_ & evs & Htrace & _ & Hnone & Hboth).
  exists evs. split; [exact Htrace |].
  destruct (Hboth "sk-demo" eq_refl eq_refl) as [Hdefault Hrun].
  split; [exact Hdefault |]. split; [exact Hrun |]. exact Hnone.
Defined.

(** The scenarios of the spec, run. *)

Example crew_scenario :
  fst (crewai_blog_post (E := crew_env) "Remote Work" "HR managers"
         "professional" 500 "remote work, productivity" demo_llm demo_world)
  = Ok (PyStr "optimized draft").
Proof. vm_compute. reflexivity. Qed.

Example linear_scenario :
  let run := langchain_blog_post (E := process_env) "Remote Work"
               "HR managers" "professional" 500 "remote work, productivity"
               demo_llm demo_world in
  fst run = Ok (PyStr "optimized draft")
  /\ flat_map (fun e => match e with
                        | EvToolCall name _ => [name]
                        | _ => []
                        end) (trace (snd run))
     = ["OutlineGenerator"; "BlogWriter"; "SEOOptimizer"].
Proof. vm_compute. split; reflexivity. Qed.

Example page_scenario :
  flat_map (fun e => match e with EvUI w => [w] | _ => [] end)
           (trace (snd (script (E := crew_env) (demo_ui "CrewAI") demo_world)))
  = (page_widgets
     ++ [ StSpinner "Generating your blog post...";
          StSubheader "Generated Blog Post";
          StWrite (PyStr "optimized draft");
          StDownloadButton "Download Blog Post" (PyStr "optimized draft")
            "blog_post_The Future of AI in .txt" "text/plain" ])%list.
Proof. vm_compute. reflexivity. Qed.

Example failing_page_scenario :
  flat_map (fun e => match e with EvUI w => [w] | _ => [] end)
           (trace (snd (script (E := failing_crew_env) (demo_ui "CrewAI")
                          demo_world)))
  = (page_widgets
     ++ [ StSpinner "Generating your blog post...";
          StError "Error occurred: rate limit exceeded" ])%list.
Proof. vm_compute. reflexivity. Qed.

(** * Further properties *)

(** ** Binding a payload, exactly *)

Section Binding.

Context {E : Environment}.

Lemma bind_params_values fname items params vs :
  bind_params fname items params = Ok vs ->
  map Some vs = map (dict_get items) params.
Proof.
  revert vs. induction params as [| p ps IH]; intros vs H; cbn in H.
  - injection H as <-. reflexivity.
  - destruct (dict_get items p) as [v |] eqn:Hv; [| discriminate H].
    destruct (bind_params fname items ps) as [vs' | e]; [| discriminate H].
    injection H as <-. cbn. rewrite Hv. f_equal. now apply IH.
Qed.

Lemma mem_dict_keys items p :
  mem p (dict_keys items)
  = match dict_get items p with Some _ => true | None => false end.
Proof.
  destruct (dict_get items p) as [v |] eqn:Hget.
  - destruct (mem p (dict_keys items)) eqn:Hmem; [reflexivity |].
    rewrite (dict_get_none _ _ Hmem) in Hget. discriminate.
  - destruct (mem p (dict_keys items)) eqn:Hmem; [| reflexivity].
    destruct (dict_get_some _ _ Hmem) as [v Hv].
    rewrite Hv in Hget. discriminate.
Qed.

Lemma bind_params_ext fname items items' params :
  (forall p, dict_get items p = dict_get items' p) ->
  bind_params fname items params = bind_params fname items' params.
Proof.
  intros Hext. induction params as [| p ps IH]; cbn [bind_params];
    [reflexivity |].
  rewrite Hext, IH.
  destruct (dict_get items' p); [reflexivity |].
  do 4 f_equal. apply filter_ext. intros q.
  now rewrite !mem_dict_keys, Hext.
Qed.

Lemma call_with_kwargs_ok fname params items vs :
  call_with_kwargs fname params (PyDict items) = Ok vs ->
  keys_match params items = true.
Proof.
  unfold call_with_kwargs, keys_match. intros H.
  destruct (mem "llm" (dict_keys items)); [discriminate H |].
  destruct (find _ (dict_keys items)) as [k |] eqn:Hfind; [discriminate H |].
  apply andb_true_iff. split.
  - apply forallb_forall. intros k Hk.
    pose proof (find_none _ _ Hfind k Hk) as Hn. cbn in Hn.
    now apply negb_false_iff in Hn.
  - destruct (forallb (fun p => mem p (dict_keys items)) params) eqn:Hall;
      [reflexivity |].
    destruct (bind_params_missing fname items params Hall) as [msg Hmsg].
    rewrite Hmsg in H. discriminate H.
Qed.

(** X1: a payload binds to a stage function exactly when its keys are the
    declared parameter names, no more and no fewer; and what is bound to
    each parameter is the payload's value under that name. *)
Theorem payload_binds_iff_keys_match fname params items :
  mem "llm" params = false ->
  ((exists vs, call_with_kwargs fname params (PyDict items) = Ok vs)
   <-> keys_match params items = true)
  /\ (forall vs,
         call_with_kwargs fname params (PyDict items) = Ok vs ->
         map Some vs = map (dict_get items) params).
Proof.
  intros Hllm. split; [split |].
  - intros [vs Hvs]. eapply call_with_kwargs_ok; eauto.
  - intros Hkeys.
    destruct (call_with_kwargs_match fname params items Hllm Hkeys)
      as (vs & Hvs & _).
    now exists vs.
  - intros vs Hvs. unfold call_with_kwargs in Hvs.
    destruct (mem "llm" (dict_keys items)); [discriminate Hvs |].
    destruct (find _ (dict_keys items)); [discriminate Hvs |].
    eapply bind_params_values; eauto.
Qed.

Lemma dict_get_permutation items items' k :
  NoDup (dict_keys items) -> Permutation items items' ->
  dict_get items k = dict_get items' k.
Proof.
  intros Hnodup Hperm.
  induction Hperm as [| [k1 v1] l l' Hperm IH
                      | [k1 v1] [k2 v2] l
                      | l l' l'' Hperm1 IH1 Hperm2 IH2].
  - reflexivity.
  - cbn. rewrite IH; [reflexivity |]. now inversion Hnodup.
  - cbn. destruct (String.eqb k1 k) eqn:H1, (String.eqb k2 k) eqn:H2;
      try reflexivity.
    apply String.eqb_eq in H1, H2. subst.
    inversion Hnodup as [| ? ? Hnotin _]. exfalso. apply Hnotin. now left.
  - rewrite IH1 by assumption. apply IH2.
    unfold dict_keys. eapply Permutation_NoDup; [| exact Hnodup].
    now apply Permutation_map.
Qed.

Lemma mem_permutation k l l' :
  Permutation l l' -> mem k l = mem k l'.
Proof.
  intros Hperm. unfold mem.
  destruct (existsb (String.eqb k) l) eqn:H1,
           (existsb (String.eqb k) l') eqn:H2; try reflexivity.
  - apply existsb_exists in H1 as (x & Hx & Heq).
    assert (H : existsb (String.eqb k) l' = true).
    { apply existsb_exists. exists x. split; [| exact Heq].
      eapply Permutation_in; eauto. }
    rewrite H in H2. discriminate.
  - apply existsb_exists in H2 as (x & Hx & Heq).
    assert (H : existsb (String.eqb k) l = true).
    { apply existsb_exists. exists x. split; [| exact Heq].
      eapply Permutation_in; [apply Permutation_sym |]; eauto. }
    rewrite H in H1. discriminate.
Qed.

(** X2: the order in which a payload lists its keys does not matter: a
    payload that binds still binds, to the same values, when its entries
    are permuted. *)
Theorem payload_order_is_irrelevant fname params items items' vs :
  NoDup (dict_keys items) ->
  Permutation items items' ->
  call_with_kwargs fname params (PyDict items) = Ok vs ->
  call_with_kwargs fname params (PyDict items') = Ok vs.
Proof.
  intros Hnodup Hperm H.
  assert (Hkeys : Permutation (dict_keys items) (dict_keys items'))
    by (unfold dict_keys; now apply Permutation_map).
  unfold call_with_kwargs in *.
  rewrite <- (mem_permutation "llm" Hkeys).
  destruct (mem "llm" (dict_keys items)); [discriminate H |].
  destruct (find (fun k => negb (mem k params)) (dict_keys items))
    as [k |] eqn:Hfind; [discriminate H |].
  destruct (find (fun k => negb (mem k params)) (dict_keys items'))
    as [k |] eqn:Hfind'.
  - exfalso. apply find_some in Hfind' as [Hin Hneg].
    apply Permutation_sym in Hkeys.
    pose proof (find_none _ _ Hfind k (Permutation_in _ Hkeys Hin)) as Hn.
    cbn in Hn. rewrite Hn in Hneg. discriminate.
  - rewrite <- H. symmetry. apply bind_params_ext.
    intros p. now apply dict_get_permutation.
Qed.

End Binding.

Lemma payload_binds_iff_keys_match_witness :
  mem "llm" outline_params = false
  /\ exists vs,
      call_with_kwargs (E := quiet_env) "generate_outline" outline_params
        (PyDict [("audience", PyStr "marketers"); ("topic", PyStr "AI")])
      = Ok vs
      /\ map Some vs = [Some (PyStr "AI"); Some (PyStr "marketers")].
Proof.
  split; [reflexivity |].
  destruct (@payload_binds_iff_keys_match quiet_env "generate_outline"
              outline_params
              [("audience", PyStr "marketers"); ("topic", PyStr "AI")]
              eq_refl) as [[_ Hbinds] Hvalues].
  destruct (Hbinds eq_refl) as [vs Hvs].
  exists vs. split; [exact Hvs |]. exact (Hvalues vs Hvs).
Defined.

Lemma payload_order_is_irrelevant_witness :
  call_with_kwargs (E := quiet_env) "generate_outline" outline_params
    (PyDict [("audience", PyStr "marketers"); ("topic", PyStr "AI")])
  = Ok [PyStr "AI"; PyStr "marketers"].
Proof.
  apply (@payload_order_is_irrelevant quiet_env "generate_outline"
           outline_params
           [("topic", PyStr "AI"); ("audience", PyStr "marketers")]).
  - repeat constructor; cbn; intuition discriminate.
  - apply perm_swap.
  - reflexivity.
Defined.

(** ** The tools, call by call *)

Section ToolCalls.

Context {E : Environment}.

Variable llm : LLM.

(** X3: a call of one of the three tools either fails and leaves the world
    as it was, or sends exactly one request, through the orchestrator's
    client, and hands back what the model service answers, reply or error,
    as it is: nothing is retried and nothing is caught. *)
Theorem tool_call_sends_at_most_one_request t x w :
  In t (blog_tools llm) ->
  (exists e, func t x w = (Err e, w))
  \/ (exists prompt,
         func t x w
         = (model_reply (calls w) llm prompt, after_call llm prompt w)).
Proof.
  intros [<- | [<- | [<- | []]]]; cbn [func].
  - unfold outline_func, bind, lift, loads.
    destruct (json_loads x) as [payload |]; [| left; eexists; reflexivity].
    destruct (call_with_kwargs "generate_outline" outline_params payload)
      as [args | e]; [| left; eexists; reflexivity].
    destruct args as [| ? [| ? [| ? ?]]];
      try (left; eexists; reflexivity).
    right. eexists. reflexivity.
  - unfold blog_func, bind, lift, loads.
    destruct (json_loads x) as [payload |]; [| left; eexists; reflexivity].
    destruct (call_with_kwargs "generate_blog_post" blog_params payload)
      as [args | e]; [| left; eexists; reflexivity].
    destruct args as [| ? [| ? [| ? [| ? [| ? [| ? ?]]]]]];
      try (left; eexists; reflexivity).
    right. eexists. reflexivity.
  - unfold seo_func, bind, lift, loads.
    destruct (json_loads x) as [payload |]; [| left; eexists; reflexivity].
    destruct (call_with_kwargs "seo_optimizer" seo_params payload)
      as [args | e]; [| left; eexists; reflexivity].
    destruct args as [| ? [| ? [| ? ?]]];
      try (left; eexists; reflexivity).
    right. eexists. reflexivity.
Qed.

(** A payload with the declared keys binds the values found under them. *)
Lemma call_with_kwargs_by_name fname params items vs :
  mem "llm" params = false ->
  keys_match params items = true ->
  map (dict_get items) params = map Some vs ->
  call_with_kwargs fname params (PyDict items) = Ok vs.
Proof.
  intros Hllm Hkeys Hvalues.
  destruct (call_with_kwargs_match fname params items Hllm Hkeys)
    as (vs' & Hvs' & _).
  rewrite Hvs'. f_equal.
  unfold call_with_kwargs in Hvs'.
  destruct (mem "llm" (dict_keys items)); [discriminate Hvs' |].
  destruct (find _ (dict_keys items)); [discriminate Hvs' |].
  apply bind_params_values in Hvs'. rewrite Hvalues in Hvs'.
  clear - Hvs'. revert vs Hvs'.
  induction vs' as [| v' vs' IH]; intros [| v vs] H; cbn in H;
    try discriminate H; [reflexivity |].
  injection H as -> H. f_equal. now apply IH.
Qed.

(** X4: given a JSON object with exactly the declared keys, each tool is
    its stage function applied to the values the object holds under those
    names, with the orchestrator's client: the values are passed on as they
    are, whatever their type. *)
Theorem tools_pass_the_payload_by_name x items :
  json_loads x = Some (PyDict items) ->
  (forall topic audience,
      keys_match outline_params items = true ->
      dict_get items "topic" = Some topic ->
      dict_get items "audience" = Some audience ->
      outline_func llm x = generate_outline topic audience llm)
  /\ (forall topic audience tone word_count keywords,
         keys_match blog_params items = true ->
         dict_get items "topic" = Some topic ->
         dict_get items "audience" = Some audience ->
         dict_get items "tone" = Some tone ->
         dict_get items "word_count" = Some word_count ->
         dict_get items "keywords" = Some keywords ->
         blog_func llm x
         = generate_blog_post topic audience tone word_count keywords llm)
  /\ (forall text keywords,
         keys_match seo_params items = true ->
         dict_get items "text" = Some text ->
         dict_get items "keywords" = Some keywords ->
         seo_func llm x = seo_optimizer text keywords llm).
Proof.
  intros Hjson. split; [| split].
  - intros topic audience Hkeys Ht Ha.
    unfold outline_func, loads. rewrite Hjson. unfold bind, lift. cbv beta iota.
    rewrite (@call_with_kwargs_by_name "generate_outline" outline_params items
               [topic; audience] eq_refl Hkeys)
      by (cbn; now rewrite Ht, Ha).
    reflexivity.
  - intros topic audience tone word_count keywords Hkeys Ht Ha Hto Hw Hk.
    unfold blog_func, loads. rewrite Hjson. unfold bind, lift. cbv beta iota.
    rewrite (@call_with_kwargs_by_name "generate_blog_post" blog_params items
               [topic; audience; tone; word_count; keywords] eq_refl Hkeys)
      by (cbn; now rewrite Ht, Ha, Hto, Hw, Hk).
    reflexivity.
  - intros text keywords Hkeys Ht Hk.
    unfold seo_func, loads. rewrite Hjson. unfold bind, lift. cbv beta iota.
    rewrite (@call_with_kwargs_by_name "seo_optimizer" seo_params items
               [text; keywords] eq_refl Hkeys)
      by (cbn; now rewrite Ht, Hk).
    reflexivity.
Qed.

(** X5: an input that is not a JSON document makes a tool raise the
    decoding error, and a JSON document that is not an object makes it
    raise a [TypeError]; in both cases no request is sent. *)
Theorem tools_reject_what_is_not_an_object t x w :
  In t (blog_tools llm) ->
  (json_loads x = None ->
   exists msg, func t x w = (Err (JSONDecodeError msg), w))
  /\ (forall v,
         json_loads x = Some v -> is_dict v = false ->
         exists msg, func t x w = (Err (TypeError msg), w)).
Proof.
  intros Hin. split.
  - intros Hjson.
    destruct Hin as [<- | [<- | [<- | []]]]; cbn [func];
      unfold outline_func, blog_func, seo_func, bind, lift, loads;
      rewrite Hjson; eexists; reflexivity.
  - intros v Hjson Hdict.
    destruct Hin as [<- | [<- | [<- | []]]]; cbn [func];
      unfold outline_func, blog_func, seo_func, bind, lift, loads;
      rewrite Hjson; destruct v; try discriminate Hdict;
      eexists; reflexivity.
Qed.

End ToolCalls.

Lemma tool_call_sends_at_most_one_request_witness :
  exists t,
    In t (blog_tools (E := recovery_env) demo_llm)
    /\ ((exists e,
            func t (json_object [("topic", "AI"); ("audience", "marketers")])
                 demo_world = (Err e, demo_world))
        \/ (exists prompt,
               func t (json_object [("topic", "AI"); ("audience", "marketers")])
                    demo_world
               = (model_reply (Environment := recovery_env)
                    (calls demo_world) demo_llm prompt,
                  after_call demo_llm prompt demo_world))).
Proof.
  eexists. split; [left; reflexivity |].
  apply (@tool_call_sends_at_most_one_request recovery_env demo_llm).
  left. reflexivity.
Defined.

Lemma tools_pass_the_payload_by_name_witness :
  outline_func (E := quiet_env) demo_llm
    (json_object [("topic", "AI"); ("audience", "marketers")])
  = generate_outline (E := quiet_env) (PyStr "AI") (PyStr "marketers")
      demo_llm.
Proof.
  destruct (@tools_pass_the_payload_by_name quiet_env demo_llm
              (json_object [("topic", "AI"); ("audience", "marketers")])
              [("topic", PyStr "AI"); ("audience", PyStr "marketers")]
              eq_refl) as [Houtline _].
  apply Houtline; reflexivity.
Defined.

Lemma tools_reject_what_is_not_an_object_witness :
  exists t,
    In t (blog_tools (E := array_env) demo_llm)
    /\ (exists msg,
           func t "not json" demo_world
           = (Err (JSONDecodeError msg), demo_world))
    /\ (exists msg,
           func t "[1, 2]" demo_world = (Err (TypeError msg), demo_world)).
Proof.
  eexists. split; [left; reflexivity |]. split.
  - apply (@tools_reject_what_is_not_an_object array_env demo_llm _
             "not json" demo_world (or_introl eq_refl)).
    reflexivity.
  - apply (proj2 (@tools_reject_what_is_not_an_object array_env demo_llm _
                    "[1, 2]" demo_world (or_introl eq_refl))
             (PyList [PyInt 1; PyInt 2])); reflexivity.
Defined.

(** ** What each strategy does, by kind of effect *)

Section AnyPredicate.

Context {E : Environment}.

Variable P : Event -> Prop.

Hypothesis Prequest : forall c p, P (EvModelCall c p).

Lemma blog_tools_emit_any c t x :
  In t (blog_tools c) -> emits P (func t x).
Proof.
  intros [<- | [<- | [<- | []]]]; cbn [func].
  - unfold outline_func. repeat emits_step.
    destruct a0 as [| ? [| ? [| ? ?]]]; try apply emits_raise.
    apply emits_invoke, Prequest.
  - unfold blog_func. repeat emits_step.
    destruct a0 as [| ? [| ? [| ? [| ? [| ? [| ? ?]]]]]];
      try apply emits_raise.
    apply emits_invoke, Prequest.
  - unfold seo_func. repeat emits_step.
    destruct a0 as [| ? [| ? [| ? ?]]]; try apply emits_raise.
    apply emits_invoke, Prequest.
Qed.

Section Loop.

Hypothesis Ptool : forall name x, P (EvToolCall name x).

Lemma perform_agent_action_emits_any c name x :
  emits P (perform_agent_action (blog_tools c) name x).
Proof.
  unfold perform_agent_action.
  destruct (find_tool (blog_tools c) name) as [t |] eqn:Hfind.
  - apply find_some in Hfind as [Hin _].
    apply emits_bind; [apply emits_emit, Ptool |].
    intros _. now apply blog_tools_emit_any with (c := c).
  - apply emits_ret.
Qed.

Lemma agent_loop_emits_any c prompt input n :
  forall steps,
    emits P (agent_loop (blog_executor c prompt) input n steps).
Proof.
  induction n as [| n IH]; intros steps; cbn [agent_loop].
  - apply emits_ret.
  - apply emits_bind.
    + unfold plan. apply emits_bind; [| intros; apply emits_ret].
      apply emits_invoke, Prequest.
    + intros [name x | answer | msg].
      * apply emits_bind; [| intros obs; apply IH].
        apply emits_try_except; [apply perform_agent_action_emits_any |].
        intros e. destruct (is_tool_invocation_error e);
          [apply emits_ret | apply emits_raise].
      * apply emits_ret.
      * cbn [handle_parsing_errors blog_executor]. apply IH.
Qed.

Lemma langchain_blog_post_emits_any topic audience tone word_count keywords c :
  emits P (langchain_blog_post topic audience tone word_count keywords c).
Proof.
  unfold langchain_blog_post.
  apply emits_bind; [apply emits_lift |]. intros prompt.
  apply emits_bind; [| intros; apply emits_lift].
  unfold executor_invoke.
  apply emits_bind; [| intros; apply emits_ret].
  apply (agent_loop_emits_any c prompt).
Qed.

End Loop.

Section Crew.

Hypothesis Pcrew : forall e, kind e = KCrew -> P e.

Lemma execute_tasks_emits_any ts :
  forall outputs last, emits P (execute_tasks ts outputs last).
Proof.
  induction ts as [| t rest IH]; intros outputs last; cbn [execute_tasks].
  - apply emits_ret.
  - apply emits_bind; [apply emits_lift |]. intros ctxs. cbv zeta.
    apply emits_bind; [apply emits_emit, Pcrew; reflexivity |]. intros _.
    apply emits_bind.
    + apply emits_try_except.
      * unfold execute_task. apply emits_invoke, Prequest.
      * intros e. apply emits_bind; [| intros; apply emits_raise].
        apply emits_emit, Pcrew. reflexivity.
    + intros out.
      apply emits_bind; [apply emits_emit, Pcrew; reflexivity |].
      intros _. apply IH.
Qed.

Lemma crewai_blog_post_emits_any topic audience tone word_count keywords c :
  emits P (crewai_blog_post topic audience tone word_count keywords c).
Proof.
  unfold crewai_blog_post, new_task, kickoff. cbv zeta.
  repeat (apply emits_bind;
          [apply emits_bind; [apply emits_fresh | intros; apply emits_ret] |];
          intros ?).
  apply emits_bind; [| intros; apply emits_ret].
  apply emits_bind; [apply emits_emit, Pcrew; reflexivity |]. intros _.
  apply emits_bind; [| intros; apply emits_ret].
  apply execute_tasks_emits_any.
Qed.

End Crew.

End AnyPredicate.

Section Lanes.

Context {E : Environment}.

(** X6: the reasoning-loop strategy only ever sends requests and calls
    tools, and the crew strategy only ever sends requests and runs crew
    tasks: neither constructs a client, renders a widget or strays into the
    other's kind of effect. *)
Theorem each_strategy_keeps_to_its_effects topic audience tone word_count
  keywords c :
  emits (of_kinds [KRequest; KTool])
        (langchain_blog_post topic audience tone word_count keywords c)
  /\ emits (of_kinds [KRequest; KCrew])
           (crewai_blog_post topic audience tone word_count keywords c).
Proof.
  split.
  - apply langchain_blog_post_emits_any; intros; cbn; auto.
  - apply crewai_blog_post_emits_any.
    + intros; cbn; auto.
    + intros e He. unfold of_kinds. rewrite He. cbn. auto.
Qed.

End Lanes.

(** ** The page *)

Section Page.

Context {E : Environment}.

Lemma events_since_app w w' evs :
  trace w' = (trace w ++ evs)%list -> events_since w w' = evs.
Proof.
  intros H. unfold events_since. rewrite H, skipn_app, skipn_all.
  now rewrite Nat.sub_diag.
Qed.

Lemma widgets_app evs evs' :
  widgets (evs ++ evs') = (widgets evs ++ widgets evs')%list.
Proof. apply flat_map_app. Qed.

Lemma new_clients_app evs evs' :
  new_clients (evs ++ evs') = (new_clients evs ++ new_clients evs')%list.
Proof. apply flat_map_app. Qed.

Lemma widgets_shown ws : widgets (map EvUI ws) = ws.
Proof.
  unfold widgets. induction ws as [| w ws IH]; cbn; [| rewrite IH];
    reflexivity.
Qed.

Lemma new_clients_shown ws : new_clients (map EvUI ws) = [].
Proof. unfold new_clients. induction ws as [| w ws IH]; cbn; auto. Qed.

Lemma widgets_none ks evs :
  ~ In KWidget ks -> Forall (of_kinds ks) evs -> widgets evs = [].
Proof.
  intros Hks Hall. induction Hall as [| e evs He _ IH]; [reflexivity |].
  change (widgets (e :: evs))
    with ((match e with EvUI w => [w] | _ => [] end) ++ widgets evs)%list.
  rewrite IH.
  destruct e; try reflexivity. exfalso. apply Hks. exact He.
Qed.

Lemma new_clients_none ks evs :
  ~ In KClient ks -> Forall (of_kinds ks) evs -> new_clients evs = [].
Proof.
  intros Hks Hall. induction Hall as [| e evs He _ IH]; [reflexivity |].
  change (new_clients (e :: evs))
    with ((match e with EvNewClient c => [c] | _ => [] end)
          ++ new_clients evs)%list.
  rewrite IH.
  destruct e; try reflexivity. exfalso. apply Hks. exact He.
Qed.

(** The selected strategy keeps to requests and to its own kind. *)
Lemma orchestrate_emits ui c :
  emits (of_kinds [KRequest; strategy_kind ui]) (orchestrate ui c).
Proof.
  unfold orchestrate, strategy_kind.
  destruct (String.eqb (ui_framework ui) "LangChain").
  - apply langchain_blog_post_emits_any; intros; cbn; auto.
  - apply crewai_blog_post_emits_any.
    + intros; cbn; auto.
    + intros e He. unfold of_kinds. rewrite He. cbn. auto.
Qed.

(** The [try] block is the attempt followed by the three result
    widgets. *)
Lemma main_try_attempt ui w :
  main_try ui w
  = match attempt ui w with
    | (Ok blog_post, w1) =>
        (Ok tt,
         mkWorld (api_key w1) (next_id w1) (calls w1)
           (trace w1 ++ map EvUI (result_widgets (ui_topic ui) blog_post)))
    | (Err e, w1) => (Err e, w1)
    end.
Proof.
  unfold main_try, attempt, bind. fold (orchestrate ui).
  destruct (get_llm (ui_temperature ui) (ui_model_name ui) w)
    as [[c | e] w0]; [| reflexivity].
  fold (orchestrate ui c).
  destruct (orchestrate ui c w0) as [[v | e] w1]; [| reflexivity].
  unfold st, emit. cbn [api_key next_id calls trace map result_widgets].
  unfold download_name. now rewrite <- !app_assoc.
Qed.

(** The attempt: the client, if there is a key, then the strategy. *)
Lemma attempt_events ui w :
  exists evs,
    trace (snd (attempt ui w)) = (trace w ++ evs)%list
    /\ Forall (of_kinds [KClient; KRequest; strategy_kind ui]) evs
    /\ new_clients evs
       = match api_key w with
         | Some _ => [attempt_client ui w]
         | None => []
         end.
Proof.
  unfold attempt, get_llm, bind, ChatOpenAI.
  destruct (api_key w) as [key |] eqn:Hkey.
  - fold (attempt_client ui w).
    match goal with
    | |- context [orchestrate ui ?c ?w0] =>
        destruct (orchestrate_emits ui c w0) as (evs & Htrace & Hall)
    end.
    exists (EvNewClient (attempt_client ui w) :: evs).
    rewrite Htrace. cbn [trace]. rewrite <- app_assoc.
    split; [reflexivity |]. split.
    + constructor; [cbn; auto |].
      eapply Forall_impl; [| exact Hall].
      intros e He. right. exact He.
    + cbn. f_equal.
      eapply new_clients_none; [| exact Hall].
      unfold strategy_kind. cbn.
      destruct (String.eqb (ui_framework ui) "LangChain");
        intuition discriminate.
  - exists []. cbn. rewrite app_nil_r. auto.
Qed.

Lemma widgets_cons x evs : widgets (EvUI x :: evs) = x :: widgets evs.
Proof. reflexivity. Qed.

Lemma new_clients_cons x evs : new_clients (EvUI x :: evs) = new_clients evs.
Proof. reflexivity. Qed.

(** A run of [main], event by event. *)
Lemma main_run ui w :
  fst (main ui w) = Ok tt
  /\ exists evs,
      trace (snd (attempt ui (page_world w)))
      = (trace (page_world w) ++ evs)%list
      /\ Forall (of_kinds [KClient; KRequest; strategy_kind ui]) evs
      /\ new_clients evs
         = match api_key w with
           | Some _ => [attempt_client ui w]
           | None => []
           end
      /\ trace (snd (main ui w))
         = (trace w
            ++ map EvUI page_widgets
            ++ (if ui_generate ui then
                  EvUI spinner_widget
                  :: evs ++ map EvUI
                              match fst (attempt ui (page_world w)) with
                              | Ok blog_post =>
                                  result_widgets (ui_topic ui) blog_post
                              | Err e => [error_widget e]
                              end
                else []))%list.
Proof.
  destruct (attempt_events ui (page_world w)) as (evs & Htrace & Hall & Hnew).
  rewrite main_eq.
  destruct (ui_generate ui).
  - unfold try_except. rewrite main_try_attempt.
    destruct (attempt ui (page_world w)) as [[v | e] w1];
      cbn [fst snd trace] in *.
    + split; [reflexivity |]. exists evs.
      repeat (split; [assumption |]).
      rewrite Htrace. unfold page_world, rendered. cbn [trace].
      rewrite map_app. cbn [map]. now rewrite <- !app_assoc.
    + split; [reflexivity |]. exists evs.
      repeat (split; [assumption |]).
      unfold st, emit. cbn [snd trace].
      rewrite Htrace. unfold page_world, rendered. cbn [trace].
      rewrite map_app. cbn [map]. now rewrite <- !app_assoc.
  - split; [reflexivity |]. exists evs.
    repeat (split; [assumption |]).
    unfold rendered. cbn [snd trace]. now rewrite app_nil_r.
Qed.

(** X7: [main] never raises.  On every run it renders the page: the title,
    the settings of the sidebar, the five inputs and the button, in that
    order.  Until the button is pressed it renders nothing else.  When the
    button is pressed it shows the spinner and then, whatever goes wrong
    during the generation being caught, exactly one error widget carrying
    the error's text; when nothing goes wrong, exactly the subheader, the
    post and a download button whose data is the very post that is
    displayed.  It never shows both a post and an error. *)
Theorem main_shows_the_post_or_the_error ui w :
  fst (main ui w) = Ok tt
  /\ widgets (events_since w (snd (main ui w)))
     = (page_widgets
        ++ (if ui_generate ui then
              spinner_widget
              :: match fst (attempt ui (page_world w)) with
                 | Ok blog_post => result_widgets (ui_topic ui) blog_post
                 | Err e => [error_widget e]
                 end
            else []))%list.
Proof.
  destruct (main_run ui w) as (Hok & evs & _ & Hall & _ & Hevents).
  split; [exact Hok |]. erewrite events_since_app by exact Hevents.
  rewrite widgets_app, widgets_shown. f_equal.
  destruct (ui_generate ui); [| reflexivity].
  rewrite widgets_cons, widgets_app, widgets_shown.
  rewrite (@widgets_none [KClient; KRequest; strategy_kind ui] evs);
    [reflexivity | | exact Hall].
  unfold strategy_kind. cbn.
  destruct (String.eqb (ui_framework ui) "LangChain"); intuition discriminate.
Qed.

(** X8: a run of [main] constructs exactly one client, from the selected
    temperature and model name, when the button is pressed and a key is
    present, and none otherwise. *)
Theorem main_constructs_one_client_per_generation ui w :
  new_clients (events_since w (snd (main ui w)))
  = if ui_generate ui then
      match api_key w with
      | Some _ => [attempt_client ui w]
      | None => []
      end
    else [].
Proof.
  destruct (main_run ui w) as (_ & evs & _ & _ & Hnew & Hevents).
  erewrite events_since_app by exact Hevents.
  rewrite new_clients_app, new_clients_shown. cbn [app].
  destruct (ui_generate ui); [| reflexivity].
  rewrite new_clients_cons, new_clients_app, new_clients_shown, app_nil_r.
  exact Hnew.
Qed.

(** X9: a run of [main] follows one strategy only: with the framework
    "LangChain" nothing of the crew happens, and with any other value of
    the selector, whatever its spelling, no tool is called. *)
Theorem main_follows_one_strategy ui w :
  Forall (fun e => kind e
                   <> (if String.eqb (ui_framework ui) "LangChain"
                       then KCrew else KTool))
         (events_since w (snd (main ui w))).
Proof.
  destruct (main_run ui w) as (_ & evs & _ & Hall & _ & Hevents).
  erewrite events_since_app by exact Hevents.
  assert (Hevs : Forall (fun e => kind e
                                  <> (if String.eqb (ui_framework ui) "LangChain"
                                      then KCrew else KTool)) evs).
  { eapply Forall_impl; [| exact Hall].
    intros e He. unfold of_kinds, strategy_kind in He. cbn in He.
    destruct (String.eqb (ui_framework ui) "LangChain");
      destruct He as [<- | [<- | [<- | []]]]; discriminate. }
  assert (Hshown : forall ws,
             Forall (fun e => kind e
                              <> (if String.eqb (ui_framework ui) "LangChain"
                                  then KCrew else KTool)) (map EvUI ws)).
  { intros ws. apply Forall_forall. intros e He.
    apply in_map_iff in He as (x & <- & _).
    cbn. destruct (String.eqb (ui_framework ui) "LangChain"); discriminate. }
  apply Forall_app. split; [apply Hshown |].
  destruct (ui_generate ui); [| constructor].
  constructor.
  - cbn. destruct (String.eqb (ui_framework ui) "LangChain"); discriminate.
  - apply Forall_app. split; [exact Hevs | apply Hshown].
Qed.

(** X13: with a key present, every run of the script constructs the
    default client at the module level, whether or not anything is
    generated; a generation adds the client of the run, and no other client
    is ever constructed. *)
Theorem script_constructs_the_default_client_every_run ui w key :
  api_key w = Some key ->
  new_clients (events_since w (snd (script ui w)))
  = default_client w :: (if ui_generate ui then [run_client ui w] else []).
Proof.
  intros Hkey.
  unfold script, module_init, bind, os_getenv_key, ChatOpenAI, ret.
  rewrite Hkey. cbn [api_key next_id calls trace].
  fold (default_client w).
  match goal with
  | |- context [main ui ?w1] =>
      destruct (main_run ui w1) as (_ & evs & _ & _ & Hnew & Htrace);
      cbn [api_key next_id trace] in Hnew, Htrace
  end.
  erewrite events_since_app
    by (rewrite Htrace, <- app_assoc; reflexivity).
  cbn [app]. change (new_clients (EvNewClient (default_client w) :: ?r))
    with (default_client w :: new_clients r).
  f_equal.
  rewrite new_clients_app, new_clients_shown. cbn [app].
  destruct (ui_generate ui); [| reflexivity].
  rewrite new_clients_cons, new_clients_app, new_clients_shown, app_nil_r.
  exact Hnew.
Qed.

End Page.

Lemma script_constructs_the_default_client_every_run_witness :
  api_key demo_world = Some "sk-demo"
  /\ new_clients
       (events_since demo_world
          (snd (script (E := crew_env) (demo_ui "CrewAI") demo_world)))
     = [mkLLM 0 (8 # 10)%Q "gpt-4"; mkLLM 1 (8 # 10)%Q "gpt-4"].
Proof.
  split; [reflexivity |].
  exact (@script_constructs_the_default_client_every_run crew_env
           (demo_ui "CrewAI") demo_world "sk-demo" eq_refl).
Defined.

(** ** The download *)

Section Download.

Lemma str_len_append (a b : string) :
  str_len (a ++ b) = str_len a + str_len b.
Proof.
  induction a as [| c a IH]; cbn [append str_len]; [reflexivity |].
  destruct (is_continuation c); rewrite IH; reflexivity.
Qed.

Lemma str_prefix_len n s :
  str_len (str_prefix n s) = Nat.min n (str_len s).
Proof.
  revert n. induction s as [| c s IH]; intros n; cbn [str_prefix str_len].
  - now rewrite Nat.min_0_r.
  - destruct (is_continuation c) eqn:Hc.
    + cbn [str_len]. rewrite Hc. apply IH.
    + destruct n as [| n]; [reflexivity |].
      cbn [str_len]. rewrite Hc, IH. reflexivity.
Qed.

Lemma str_prefix_all n s : str_len s <= n -> str_prefix n s = s.
Proof.
  revert n. induction s as [| c s IH]; intros n H; cbn [str_prefix str_len] in *;
    [reflexivity |].
  destruct (is_continuation c).
  - now rewrite IH.
  - destruct n as [| n]; [lia |]. rewrite IH by lia. reflexivity.
Qed.

Lemma prefix_append (a b : string) : prefix a (a ++ b) = true.
Proof.
  induction a as [| c a IH]; cbn.
  - destruct b; reflexivity.
  - destruct (ascii_dec c c) as [_ | Hneq]; [exact IH | now elim Hneq].
Qed.

(** X10: the name of the download is the topic cut to its first twenty
    characters between "blog_post_" and ".txt", characters being counted
    as Python counts them, whatever number of bytes each takes: the name is
    never longer than 34 characters, and a topic of at most twenty
    characters appears in it whole. *)
Theorem download_name_is_bounded (topic : string) :
  str_len (download_name topic) = 14 + Nat.min 20 (str_len topic)
  /\ str_len (download_name topic) <= 34
  /\ prefix "blog_post_" (download_name topic) = true
  /\ (str_len topic <= 20 ->
      download_name topic = "blog_post_" ++ topic ++ ".txt").
Proof.
  assert (Hlen : str_len (download_name topic)
                 = 14 + Nat.min 20 (str_len topic)).
  { unfold download_name.
    rewrite !str_len_append, str_prefix_len. cbn. lia. }
  split; [exact Hlen |]. split; [lia |].
  split; [apply prefix_append |].
  intros Hshort. unfold download_name.
  now rewrite str_prefix_all.
Qed.

End Download.

Lemma download_name_is_bounded_witness :
  str_len accented_topic <= 20
  /\ String.length accented_topic = 30
  /\ download_name accented_topic = "blog_post_" ++ accented_topic ++ ".txt".
Proof.
  split; [vm_compute; lia |]. split; [reflexivity |].
  apply (proj2 (proj2 (proj2 (download_name_is_bounded accented_topic)))).
  vm_compute. lia.
Defined.

(** ** The hub *)

Section Hub.

Context {E : Environment}.

(** X11: when the prompt cannot be pulled from the hub, the reasoning-loop
    strategy raises the hub's error at once, having done nothing; a
    generation with that strategy then shows this error and sends no
    request to the model. *)
Theorem hub_failure_ends_the_generation (e : Exn) :
  hub_pull "hwchase17/react" = Err e ->
  (forall topic audience tone word_count keywords llm w,
      langchain_blog_post topic audience tone word_count keywords llm w
      = (Err e, w))
  /\ (forall ui w key,
         api_key w = Some key ->
         ui_generate ui = true ->
         ui_framework ui = "LangChain" ->
         widgets (events_since w (snd (main ui w)))
         = (page_widgets ++ [spinner_widget; error_widget e])%list
         /\ calls (snd (main ui w)) = calls w).
Proof.
  intros Hhub.
  assert (Hlinear : forall topic audience tone word_count keywords llm w,
             langchain_blog_post topic audience tone word_count keywords llm w
             = (Err e, w)).
  { intros. unfold langchain_blog_post, bind, lift. now rewrite Hhub. }
  split; [exact Hlinear |].
  intros ui w key Hkey Hgen Hframework.
  rewrite main_eq, Hgen.
  unfold try_except, main_try, get_llm, bind, ChatOpenAI.
  unfold page_world, rendered.
  cbn [api_key next_id calls trace]. rewrite Hkey, Hframework.
  cbn [String.eqb Ascii.eqb Bool.eqb andb]. rewrite Hlinear.
  unfold st, emit.
  cbn [fst snd calls trace api_key next_id]. split; [| reflexivity].
  erewrite events_since_app
    by (cbn [trace]; rewrite <- !app_assoc; reflexivity).
  rewrite widgets_app, widgets_shown. cbn [widgets flat_map app].
  now rewrite <- app_assoc.
Qed.

End Hub.

Lemma hub_failure_ends_the_generation_witness :
  hub_pull (Environment := offline_env) "hwchase17/react"
  = Err (HubError "hub unreachable")
  /\ widgets (events_since demo_world
                (snd (main (E := offline_env) (demo_ui "LangChain")
                        demo_world)))
     = (page_widgets
        ++ [spinner_widget; error_widget (HubError "hub unreachable")])%list.
Proof.
  split; [reflexivity |].
  destruct (@hub_failure_ends_the_generation offline_env
              (HubError "hub unreachable") eq_refl) as [_ Hmain].
  destruct (Hmain (demo_ui "LangChain") demo_world "sk-demo"
              eq_refl eq_refl eq_refl) as [Hwidgets _].
  exact Hwidgets.
Defined.

(** ** The outline task *)

Section Outline.

Context {E : Environment}.

(** X12: every run of the crew strategy opens, right after the kickoff,
    with the outline task, started with an empty context, and with its
    request to the model; that task and its request are made of the topic,
    the audience and the client alone: the tone, the word count and the
    keywords have no part in them. *)
Theorem crew_opens_with_the_outline_request topic audience tone word_count
  keywords llm w :
  exists crew rest,
    events_since w
      (snd (crewai_blog_post topic audience tone word_count keywords llm w))
    = (EvKickoff crew
       :: EvTaskStart (outline_task_of topic audience llm (next_id w))
            EmptyString
       :: task_call (outline_task_of topic audience llm (next_id w))
            EmptyString
       :: rest)%list
    /\ hd_error (tasks crew)
       = Some (outline_task_of topic audience llm (next_id w)).
Proof.
  unfold crewai_blog_post, new_task, kickoff, bind, fresh, ret, emit.
  cbv beta iota zeta. cbn [next_id api_key calls trace map task_id tasks].
  fold (outline_task_of topic audience llm (next_id w)).
  match goal with
  | |- context [EvKickoff ?c] => set (crew := c)
  end.
  exists crew.
  rewrite execute_tasks_cons.
  cbn [context outline_task_of gather_context String.concat calls trace].
  fold (outline_task_of topic audience llm (next_id w)).
  destruct (task_reply (calls w)
              (outline_task_of topic audience llm (next_id w)) EmptyString)
    as [o1 | e].
  - match goal with
    | |- context [execute_tasks ?ts ?outs ?last ?w0] =>
        destruct (@execute_tasks_emits_any E (fun _ => True)
                    (fun _ _ => I) (fun _ _ => I) ts outs last w0)
          as (evs & Htrace & _);
        destruct (execute_tasks ts outs last w0) as [[o | e] w4]
    end; cbn [snd trace] in *;
      eexists; (split; [| reflexivity]);
      apply events_since_app; rewrite Htrace; cbn [trace];
      rewrite <- !app_assoc; reflexivity.
  - eexists. split; [| reflexivity].
    apply events_since_app. cbn [snd trace].
    rewrite <- !app_assoc. reflexivity.
Qed.

End Outline.
